(** * extract_volume.py: STEP volume extraction through the FreeCAD kernel

    A shallow embedding of [src/scripts/extract_volume.py].

    The script is a thin shim around an external geometry kernel, so the
    embedding has three layers:

    - [Number]: the arithmetic the script performs on volumes ([0.0], [+=],
      [> 0], [<= 0], [/ 1000.0]), as an interface with two instances: IEEE-754
      binary64 (what CPython and the kernel compute with) and exact rationals;
    - [Kernel]: the behaviour of the external collaborator (FreeCAD, the
      [Import] module), given as the outcome of every call the script makes;
    - a small monad [M] for Python statements: a statement completes
      normally, executes [return], or raises, and every kernel call is
      appended to a trace. *)

From Stdlib Require Import String List ZArith QArith Floats Bool Lia.
Import ListNotations.

Local Open Scope string_scope.
Local Open Scope list_scope.

(** ** Exceptions

    Every exception the script can observe is an instance of [Exception];
    the handlers of the script distinguish [ImportError] (the two inner
    handlers around [import FreeCAD]) and [AttributeError] (what [hasattr]
    swallows).  [exn_str] is [str(e)]. *)

Inductive exn_class : Set := ImportError | AttributeError | OtherException.

Record exn : Set := Exn { exn_cls : exn_class; exn_str : string }.

(** The outcome of evaluating an expression: a value, or a raised exception. *)
Inductive outcome (A : Type) : Type :=
| Ok (a : A)
| Raise (e : exn).

Arguments Ok {A} a.
Arguments Raise {A} e.

Definition is_ImportError (e : exn) : bool :=
  match exn_cls e with ImportError => true | _ => false end.

(** [except Exception] catches every exception of the model. *)
Definition is_Exception (e : exn) : bool := true.

(** [hasattr(o, name)]: true when the attribute read gives a value, false
    when it raises [AttributeError]; any other exception propagates. *)
Definition hasattr {A : Type} (read : outcome A) : outcome bool :=
  match read with
  | Ok _ => Ok true
  | Raise e =>
      match exn_cls e with
      | AttributeError => Ok false
      | _ => Raise e
      end
  end.

(** ** Arithmetic on volumes *)

Class Number (V : Type) : Type := {
  num_zero : V;               (* the literal [0.0] *)
  num_add : V -> V -> V;      (* [total_volume += v] *)
  num_div1000 : V -> V;       (* [total_volume / 1000.0] *)
  num_gt0 : V -> bool;        (* [v > 0] *)
  num_le0 : V -> bool         (* [total_volume <= 0] *)
}.

(** IEEE-754 binary64, the arithmetic of Python's [float]. *)
#[export] Instance float_Number : Number float := {
  num_zero := 0%float;
  num_add := PrimFloat.add;
  num_div1000 := fun x => PrimFloat.div x 1000%float;
  num_gt0 := fun x => PrimFloat.ltb 0%float x;
  num_le0 := fun x => PrimFloat.leb x 0%float
}.

(** Exact arithmetic on rationals. *)
#[export] Instance Q_Number : Number Q := {
  num_zero := 0%Q;
  num_add := Qplus;
  num_div1000 := fun x => Qdiv x (1000 # 1);
  num_gt0 := fun x => negb (Qle_bool x 0%Q);
  num_le0 := fun x => Qle_bool x 0%Q
}.

(** The laws of the comparison and the sum that the aggregation relies on.
    Both instances satisfy them. *)
Class NumberLaws (V : Type) {N : Number V} : Type := {
  le0_zero : num_le0 num_zero = true;
  gt0_zero : num_gt0 num_zero = false;
  gt0_not_le0 : forall x : V, num_gt0 x = true -> num_le0 x = false;
  gt0_add_zero : forall x : V, num_gt0 x = true -> num_gt0 (num_add num_zero x) = true;
  gt0_add : forall a x : V,
      num_gt0 a = true -> num_gt0 x = true -> num_gt0 (num_add a x) = true
}.

(** The law of the unit conversion; it holds in exact arithmetic only. *)
Class ExactDivision (V : Type) {N : Number V} : Type := {
  gt0_div1000 : forall x : V, num_gt0 x = true -> num_gt0 (num_div1000 x) = true
}.

(** Readings of a binary64 value through its specification: strictly
    positive (finite or infinite), and not negative (zero included); a NaN
    is neither. *)
Definition sf_positive (x : spec_float) : bool :=
  match x with
  | S754_infinity false | S754_finite false _ _ => true
  | _ => false
  end.

Definition sf_nonneg (x : spec_float) : bool :=
  match x with
  | S754_zero false | S754_infinity false | S754_finite false _ _ => true
  | _ => false
  end.

(** ** The kernel's object model *)

Section Model.

Context {V : Type} {N : Number V}.

(** [obj.Shape] and [obj.Shape.Volume] are attribute reads: each gives a
    value or raises.  The reads of one object are repeatable. *)
Record shape : Type := { Volume : outcome V }.

Record obj : Type := { Shape : outcome shape }.

(** The behaviour of the external collaborator, call by call. *)
Record Kernel : Type := {
  (* [import FreeCAD] with the interpreter's own [sys.path] *)
  import_FreeCAD : outcome unit;
  (* [import FreeCAD] after the three fallback directories were appended *)
  import_FreeCAD_retry : outcome unit;
  (* [FreeCAD.newDocument(label)]: the [Name] of the new document *)
  FreeCAD_newDocument : string -> outcome string;
  (* [import Import] *)
  import_Import : outcome unit;
  (* [Import.insert(path, name)] *)
  Import_insert : string -> string -> outcome unit;
  (* [doc.Objects] of document [name] once [path] was inserted *)
  doc_Objects : string -> string -> outcome (list obj);
  (* [FreeCAD.closeDocument(name)] *)
  FreeCAD_closeDocument : string -> outcome unit
}.

(** What the script did to its environment, in order. *)
Inductive event : Type :=
| ev_import (module : string)
| ev_sys_path_append (dir : string)
| ev_newDocument (label : string) (created : outcome string)
| ev_insert (path name : string)
| ev_closeDocument (name : string).

Definition trace : Type := list event.

(** ** Python values the script returns *)

Inductive pyvalue : Type :=
| PyFloat (v : V)
| PyInt (z : Z)
| PyStr (s : string)
| PyBool (b : bool).

(** A dict literal, in insertion order. *)
Definition dict : Type := list (string * pyvalue).

(** ** Statements *)

Inductive completion (A : Type) : Type :=
| Normal (a : A)        (* falls through to the next statement *)
| Return (r : dict)     (* executed [return r] *)
| Raised (e : exn).     (* an exception is propagating *)

Arguments Normal {A} a.
Arguments Return {A} r.
Arguments Raised {A} e.

Definition M (A : Type) : Type := trace -> completion A * trace.

Definition ret {A : Type} (a : A) : M A := fun t => (Normal a, t).

Definition bind {A B : Type} (m : M A) (f : A -> M B) : M B :=
  fun t =>
    match m t with
    | (Normal a, t') => f a t'
    | (Return r, t') => (Return r, t')
    | (Raised e, t') => (Raised e, t')
    end.

Notation "x <- m ;; k" := (bind m (fun x => k))
  (at level 61, m at next level, right associativity).
Notation "m ;; k" := (bind m (fun _ => k))
  (at level 61, right associativity).

Definition return_ {A : Type} (r : dict) : M A := fun t => (Return r, t).

Definition eval {A : Type} (o : outcome A) : M A :=
  fun t => (match o with Ok a => Normal a | Raise e => Raised e end, t).

(** A call into the environment: logged, then its outcome takes effect. *)
Definition call {A : Type} (ev : event) (o : outcome A) : M A :=
  fun t => (match o with Ok a => Normal a | Raise e => Raised e end, t ++ [ev]).

(** [try: body except <catches> as e: handler e] *)
Definition try_except {A : Type}
    (body : M A) (catches : exn -> bool) (handler : exn -> M A) : M A :=
  fun t =>
    match body t with
    | (Raised e, t') => if catches e then handler e t' else (Raised e, t')
    | done => done
    end.

(** The value of a function call whose body is [body]: the returned dict,
    [None] when the body falls off its end, or the escaping exception. *)
Definition call_function (body : M unit) (t : trace) : outcome (option dict) * trace :=
  match body t with
  | (Normal _, t') => (Ok None, t')
  | (Return r, t') => (Ok (Some r), t')
  | (Raised e, t') => (Raise e, t')
  end.

(** ** extract_volume *)

(** Lines 42-45, the body of the loop: one object against the running
    [(total_volume, object_count)]. *)
Definition loop_body (o : obj) (acc : V * Z) : M (V * Z) :=
  let '(total_volume, object_count) := acc in
  has_shape <- eval (hasattr (Shape o)) ;;
  if has_shape : bool then
    s <- eval (Shape o) ;;
    has_volume <- eval (hasattr (Volume s)) ;;
    if has_volume : bool then
      v <- eval (Volume s) ;;
      if num_gt0 v
      then ret (num_add total_volume v, (object_count + 1)%Z)
      else ret acc
    else ret acc
  else ret acc.

(** Line 41, [for obj in doc.Objects]. *)
Fixpoint for_loop (objs : list obj) (acc : V * Z) : M (V * Z) :=
  match objs with
  | [] => ret acc
  | o :: rest => acc' <- loop_body o acc ;; for_loop rest acc'
  end.

Definition error_dict (msg : string) : dict := [("error", PyStr msg)].

Definition success_dict (volume : V) (object_count : Z) : dict :=
  [("volume", PyFloat volume); ("units", PyStr "cm3");
   ("object_count", PyInt object_count); ("success", PyBool true)].

(** Lines 14-24: [import FreeCAD], with the fallback directories. *)
Definition import_FreeCAD_stmt (k : Kernel) : M unit :=
  try_except
    (call (ev_import "FreeCAD") (import_FreeCAD k))
    is_ImportError
    (fun _ =>
       try_except
         (call (ev_sys_path_append "/usr/lib/freecad-python3/lib") (Ok tt) ;;
          call (ev_sys_path_append "/usr/lib/freecad/lib") (Ok tt) ;;
          call (ev_sys_path_append "/Applications/FreeCAD.app/Contents/lib") (Ok tt) ;;
          call (ev_import "FreeCAD") (import_FreeCAD_retry k))
         is_ImportError
         (fun _ => return_ (error_dict "FreeCAD not installed or not in PATH"))).

(** Lines 30-35: the import of the STEP file into document [name]. *)
Definition import_STEP_stmt (k : Kernel) (step_file_path name : string) : M unit :=
  try_except
    (call (ev_import "Import") (import_Import k) ;;
     call (ev_insert step_file_path name) (Import_insert k step_file_path name))
    is_Exception
    (fun e =>
       call (ev_closeDocument name) (FreeCAD_closeDocument k name) ;;
       return_ (error_dict ("Failed to import STEP file: " ++ exn_str e))).

(** Lines 12-64, the body of [extract_volume]. *)
Definition extract_volume_body (k : Kernel) (step_file_path : string) : M unit :=
  try_except
    (import_FreeCAD_stmt k ;;
     let label := "VolumeExtraction" in
     let created := FreeCAD_newDocument k label in
     name <- call (ev_newDocument label created) created ;;
     import_STEP_stmt k step_file_path name ;;
     objs <- eval (doc_Objects k name step_file_path) ;;
     acc <- for_loop objs (num_zero, 0%Z) ;;
     let '(total_volume, object_count) := acc in
     call (ev_closeDocument name) (FreeCAD_closeDocument k name) ;;
     if num_le0 total_volume
     then return_ (error_dict "No valid solid objects found in STEP file")
     else
       let volume_cm3 := num_div1000 total_volume in
       return_ (success_dict volume_cm3 object_count))
    is_Exception
    (fun e => return_ (error_dict ("Volume extraction failed: " ++ exn_str e))).

Definition extract_volume (k : Kernel) (step_file_path : string)
  : trace -> outcome (option dict) * trace :=
  call_function (extract_volume_body k step_file_path).

(** ** The two shapes of a result *)

(** Exactly the fields [volume], [units] (the string [cm3]), [object_count]
    and [success] (true). *)
Definition is_success_shape (d : dict) : bool :=
  match d with
  | [(k1, PyFloat _); (k2, PyStr u); (k3, PyInt _); (k4, PyBool true)] =>
      (k1 =? "volume") && (k2 =? "units") && (u =? "cm3")
      && (k3 =? "object_count") && (k4 =? "success")
  | _ => false
  end.

(** Exactly the single field [error], a string. *)
Definition is_error_shape (d : dict) : bool :=
  match d with
  | [(k1, PyStr _)] => k1 =? "error"
  | _ => false
  end.

(** ** The aggregation, read off the loop

    What one object does to the running total: it contributes a volume, is
    skipped, or makes the loop raise. *)
Definition contribution (o : obj) : outcome (option V) :=
  match hasattr (Shape o) with
  | Raise e => Raise e
  | Ok false => Ok None
  | Ok true =>
      match Shape o with
      | Raise e => Raise e
      | Ok s =>
          match hasattr (Volume s) with
          | Raise e => Raise e
          | Ok false => Ok None
          | Ok true =>
              match Volume s with
              | Raise e => Raise e
              | Ok v => Ok (if num_gt0 v then Some v else None)
              end
          end
      end
  end.

(** The loop as a fold over the contributions. *)
Fixpoint aggregate (objs : list obj) (acc : V * Z) : outcome (V * Z) :=
  match objs with
  | [] => Ok acc
  | o :: rest =>
      match contribution o with
      | Ok (Some v) => aggregate rest (num_add (fst acc) v, (snd acc + 1)%Z)
      | Ok None => aggregate rest acc
      | Raise e => Raise e
      end
  end.

(** The volumes V1..Vn of the solids of a document, in document order. *)
Definition positive_volumes (objs : list obj) : list V :=
  flat_map (fun o => match contribution o with
                     | Ok (Some v) => [v]
                     | _ => []
                     end) objs.

(** V1 + ... + Vn, summed from the left starting at zero. *)
Definition sum_volumes (vs : list V) : V := fold_left num_add vs num_zero.

(** An object the loop counts: its shape has a volume that is [> 0]. *)
Definition is_solid (o : obj) (v : V) : Prop :=
  exists s, Shape o = Ok s /\ Volume s = Ok v /\ num_gt0 v = true.

(** An object the loop skips: no [Shape] attribute, a shape with no
    [Volume] attribute, or a volume that is not [> 0]. *)
Inductive is_skipped (o : obj) : Prop :=
| skipped_no_shape (e : exn) :
    Shape o = Raise e -> exn_cls e = AttributeError -> is_skipped o
| skipped_no_volume (s : shape) (e : exn) :
    Shape o = Ok s -> Volume s = Raise e -> exn_cls e = AttributeError ->
    is_skipped o
| skipped_not_positive (s : shape) (v : V) :
    Shape o = Ok s -> Volume s = Ok v -> num_gt0 v = false -> is_skipped o.

(** A document whose objects are solids of volumes [vs], in that order,
    with skipped objects anywhere in between. *)
Inductive solids_of : list obj -> list V -> Prop :=
| solids_nil : solids_of [] []
| solids_solid o v rest vs :
    is_solid o v -> solids_of rest vs -> solids_of (o :: rest) (v :: vs)
| solids_skipped o rest vs :
    is_skipped o -> solids_of rest vs -> solids_of (o :: rest) vs.

(** ** A document that was imported

    [import FreeCAD] succeeds at once, or fails with [ImportError] and
    succeeds once the fallback directories are on [sys.path]. *)
Definition FreeCAD_available (k : Kernel) : Prop :=
  import_FreeCAD k = Ok tt
  \/ exists e, import_FreeCAD k = Raise e /\ is_ImportError e = true
               /\ import_FreeCAD_retry k = Ok tt.

(** The kernel is there, created the document [name], imported the file at
    [path] into it, and lists [objs] as the document's objects. *)
Record imported (k : Kernel) (path name : string) (objs : list obj) : Prop := {
  imported_available : FreeCAD_available k;
  imported_created : FreeCAD_newDocument k "VolumeExtraction" = Ok name;
  imported_Import : import_Import k = Ok tt;
  imported_insert : Import_insert k path name = Ok tt;
  imported_Objects : doc_Objects k name path = Ok objs
}.

(** ** main *)

(** What a run of the script leaves behind: the lines printed on standard
    output, the exit status, and the calls made into the kernel. *)
Record process : Type := {
  stdout : list string;
  exit_status : Z;
  kernel_calls : trace
}.

Section Main.

(** [os.path.exists] and [json.dumps] belong to the environment. *)
Variable os_path_exists : string -> bool.
Variable json_dumps : option dict -> string.

Definition dquote : string := String (Ascii.ascii_of_nat 34) EmptyString.

(** The literal of line 69. *)
Definition usage_line : string :=
  "{" ++ dquote ++ "error" ++ dquote ++ ": " ++ dquote
  ++ "Usage: python3 extract_volume.py <step_file_path>" ++ dquote ++ "}".

(** The literal of line 75. *)
Definition not_found_line : string :=
  "{" ++ dquote ++ "error" ++ dquote ++ ": " ++ dquote
  ++ "STEP file not found" ++ dquote ++ "}".

(** Lines 66-82.  [sys.exit(1)] ends the process with status 1; an
    exception escaping [main] ends it with status 1 and prints nothing on
    standard output; otherwise the interpreter exits with status 0. *)
Definition main (k : Kernel) (argv : list string) : process :=
  if negb (Nat.eqb (length argv) 2) then
    {| stdout := [usage_line]; exit_status := 1; kernel_calls := [] |}
  else
    let step_file_path := nth 1 argv "" in
    if negb (os_path_exists step_file_path) then
      {| stdout := [not_found_line]; exit_status := 1; kernel_calls := [] |}
    else
      match extract_volume k step_file_path [] with
      | (Ok result, t) =>
          {| stdout := [json_dumps result]; exit_status := 0; kernel_calls := t |}
      | (Raise _, t) =>
          {| stdout := []; exit_status := 1; kernel_calls := t |}
      end.

End Main.

End Model.

Arguments Normal {V A} a.
Arguments Return {V A} r.
Arguments Raised {V A} e.

(** ** Concrete environments *)

(** A kernel that is installed, names the document after its label, imports
    any file and closes any document; [objs] is what [doc.Objects] gives. *)
Definition kernel_with {V : Type} (objs : outcome (list (@obj V))) : @Kernel V := {|
  import_FreeCAD := Ok tt;
  import_FreeCAD_retry := Ok tt;
  FreeCAD_newDocument := fun label => Ok label;
  import_Import := Ok tt;
  Import_insert := fun _ _ => Ok tt;
  doc_Objects := fun _ _ => objs;
  FreeCAD_closeDocument := fun _ => Ok tt
|}.

(** An object with a shape of volume [v]. *)
Definition solid {V : Type} (v : V) : @obj V :=
  {| Shape := Ok {| Volume := Ok v |} |}.

(** An object with no [Shape] attribute, such as a datum plane. *)
Definition datum {V : Type} : @obj V :=
  {| Shape := Raise (Exn AttributeError "object has no attribute 'Shape'") |}.

(** An object whose shape has no [Volume] attribute. *)
Definition open_shape {V : Type} : @obj V :=
  {| Shape := Ok {| Volume := Raise (Exn AttributeError "shape has no attribute 'Volume'") |} |}.

(** A kernel whose [doc.Objects] raises on the imported document. *)
Definition kernel_objects_raise : @Kernel float :=
  kernel_with (Raise (Exn OtherException "document is corrupt")).

(** The smallest positive binary64 value, 2^-1074. *)
Definition tiny : float := 0x1p-1074%float.

(** 500 * 2^-1074, about 2.47e-321: the largest total whose quotient by
    1000.0 rounds to 0.0. *)
Definition underflow_threshold : float := 0x1f4p-1074%float.

(** A document with one solid of volume [tiny] mm3. *)
Definition kernel_tiny_solid : @Kernel float := kernel_with (Ok [solid tiny]).

(** Two solids of 1500 and 2500 mm3 among a datum, an open shape and a
    solid of volume zero. *)
Definition kernel_two_solids : @Kernel float :=
  kernel_with (Ok [datum; solid 1500%float; open_shape; solid 0%float; solid 2500%float]).

(** The same document in exact arithmetic. *)
Definition kernel_two_solids_Q : @Kernel Q :=
  kernel_with (Ok [datum; solid (1500 # 1); open_shape; solid 0%Q; solid (2500 # 1)]).

(** A document with a datum and a zero-volume solid only. *)
Definition kernel_no_solid : @Kernel float :=
  kernel_with (Ok [datum; solid 0%float]).

(** ** Two invocations in one environment

    What a later invocation finds when the kernel behaves as it did for an
    earlier one, but carries the state the earlier one left: [k1] is the
    behaviour met by the first invocation, [k2] by the second.

    [import FreeCAD] behaves as before (a fresh process); or it succeeds at
    once because the module was imported before (it is in [sys.modules]);
    or, the first attempt having failed, [sys.path] still holds the
    fallback directories, and the import behaves at once as the retry
    did. *)
Inductive same_import {V : Type} (k1 k2 : @Kernel V) : Prop :=
| import_unchanged :
    import_FreeCAD k2 = import_FreeCAD k1 ->
    import_FreeCAD_retry k2 = import_FreeCAD_retry k1 ->
    same_import k1 k2
| import_cached :
    FreeCAD_available k1 ->
    import_FreeCAD k2 = Ok tt ->
    same_import k1 k2
| import_path_extended (e : exn) :
    import_FreeCAD k1 = Raise e -> is_ImportError e = true ->
    import_FreeCAD k2 = import_FreeCAD_retry k1 ->
    import_FreeCAD_retry k2 = import_FreeCAD_retry k1 ->
    same_import k1 k2.

(** [FreeCAD.newDocument(label)] fails as before, or creates a document
    whose name may differ (a document left open by the first invocation
    holds the name), into which the file at [path] imports as before, with
    the same objects, and which closes as before. *)
Definition same_document {V : Type}
    (k1 k2 : @Kernel V) (path label : string) : Prop :=
  match FreeCAD_newDocument k1 label, FreeCAD_newDocument k2 label with
  | Ok name1, Ok name2 =>
      Import_insert k2 path name2 = Import_insert k1 path name1
      /\ doc_Objects k2 name2 path = doc_Objects k1 name1 path
      /\ FreeCAD_closeDocument k2 name2 = FreeCAD_closeDocument k1 name1
  | Raise e1, Raise e2 => e2 = e1
  | _, _ => False
  end.

Record same_environment {V : Type}
    (k1 k2 : @Kernel V) (path : string) : Prop := {
  same_environment_import : same_import k1 k2;
  same_environment_Import : import_Import k2 = import_Import k1;
  same_environment_document : forall label, same_document k1 k2 path label
}.

(** The second invocation after one that needed the fallback directories
    and left its document open: FreeCAD is imported already, and the new
    document gets another name. *)
Definition kernel_second_invocation : @Kernel float := {|
  import_FreeCAD := Ok tt;
  import_FreeCAD_retry := Ok tt;
  FreeCAD_newDocument := fun label => Ok (label ++ "1")%string;
  import_Import := Ok tt;
  Import_insert := fun _ _ => Ok tt;
  doc_Objects := fun _ _ =>
    Ok [datum; solid 1500%float; open_shape; solid 0%float; solid 2500%float];
  FreeCAD_closeDocument := fun _ => Ok tt
|}.

(** The first invocation: FreeCAD is found through the fallback
    directories only. *)
Definition kernel_first_invocation : @Kernel float := {|
  import_FreeCAD := Raise (Exn ImportError "No module named 'FreeCAD'");
  import_FreeCAD_retry := Ok tt;
  FreeCAD_newDocument := fun label => Ok label;
  import_Import := Ok tt;
  Import_insert := fun _ _ => Ok tt;
  doc_Objects := fun _ _ =>
    Ok [datum; solid 1500%float; open_shape; solid 0%float; solid 2500%float];
  FreeCAD_closeDocument := fun _ => Ok tt
|}.

(** * Properties *)

Section Properties.

Context {V : Type} {N : Number V}.

Implicit Types (k : @Kernel V) (o : @obj V) (objs : list (@obj V)).
Implicit Types (t : trace) (d : @dict V) (acc : V * Z).

(** ** The loop *)

Lemma loop_body_contribution o total n t :
  loop_body o (total, n) t =
  (match contribution o with
   | Ok (Some v) => Normal (num_add total v, (n + 1)%Z)
   | Ok None => Normal (total, n)
   | Raise e => Raised e
   end, t).
Proof.
  unfold loop_body, contribution, bind, eval, ret, hasattr.
  destruct (Shape o) as [s | e]; simpl.
  - destruct (Volume s) as [v | e]; simpl.
    + destruct (num_gt0 v); reflexivity.
    + destruct (exn_cls e); reflexivity.
  - destruct (exn_cls e); reflexivity.
Qed.

(** The loop never executes [return], leaves the trace alone, and computes
    the fold of the contributions. *)
Lemma for_loop_aggregate objs : forall acc t,
  for_loop objs acc t =
  (match aggregate objs acc with
   | Ok acc' => Normal acc'
   | Raise e => Raised e
   end, t).
Proof.
  induction objs as [| o rest IH]; intros [total n] t; cbn [for_loop aggregate].
  - reflexivity.
  - unfold bind. rewrite loop_body_contribution.
    destruct (contribution o) as [[v |] | e]; cbn [fst snd]; auto.
Qed.

(** The fold, when no object raises: the sum and the count of the positive
    volumes, on top of the accumulator. *)
Lemma aggregate_positive_volumes objs : forall acc total n,
  aggregate objs acc = Ok (total, n) ->
  total = fold_left num_add (positive_volumes objs) (fst acc)
  /\ n = (snd acc + Z.of_nat (length (positive_volumes objs)))%Z.
Proof.
  induction objs as [| o rest IH]; intros [total0 n0] total n; simpl.
  - intros [= <- <-]. split; [reflexivity | lia].
  - destruct (contribution o) as [[v |] | e]; simpl; intros H.
    + apply IH in H. simpl in H. destruct H as [-> ->]. split; [reflexivity | lia].
    + apply IH in H. exact H.
    + discriminate.
Qed.

Lemma aggregate_total objs : forall acc,
  Forall (fun o => exists c, contribution o = Ok c) objs ->
  exists total n, aggregate objs acc = Ok (total, n).
Proof.
  induction objs as [| o rest IH]; intros [total0 n0] HF; simpl.
  - eauto.
  - inversion HF as [| ? ? [c Hc] HF']; subst. rewrite Hc.
    destruct c as [v |]; apply IH; assumption.
Qed.

Lemma is_solid_contribution o v :
  is_solid o v -> contribution o = Ok (Some v).
Proof.
  intros (s & Hs & Hv & Hpos). unfold contribution, hasattr.
  rewrite Hs, Hv, Hpos. reflexivity.
Qed.

Lemma is_skipped_contribution o :
  is_skipped o -> contribution o = Ok None.
Proof.
  unfold contribution, hasattr.
  intros [e Hs He | s e Hs Hv He | s v Hs Hv Hpos].
  - rewrite Hs, He. reflexivity.
  - rewrite Hs, Hv, He. reflexivity.
  - rewrite Hs, Hv, Hpos. reflexivity.
Qed.

(** ** Running the function *)

Ltac run_extract_volume :=
  unfold extract_volume, call_function, extract_volume_body,
    import_FreeCAD_stmt, import_STEP_stmt, try_except, bind, call, eval,
    return_, ret, is_Exception, is_ImportError;
  simpl.

Ltac case_outcome :=
  match goal with
  | |- context [let '(_, _) := ?p in _] => is_var p; destruct p; simpl
  | |- context [match ?o with Ok _ => _ | Raise _ => _ end] =>
      destruct o eqn:?; simpl
  | |- context [match exn_cls ?e with _ => _ end] =>
      destruct (exn_cls e) eqn:?; simpl
  | |- context [if ?b then _ else _] => destruct b eqn:?; simpl
  end.

Lemma extract_volume_returns_a_shape k step_file_path t :
  exists d, fst (extract_volume k step_file_path t) = Ok (Some d)
            /\ xorb (is_success_shape d) (is_error_shape d) = true.
Proof.
  destruct k as [imp imp' newdoc impI ins objsf close].
  run_extract_volume.
  repeat (rewrite ?for_loop_aggregate; simpl; try case_outcome);
    eexists; split; reflexivity.
Qed.

(** The function's result does not depend on the calls made before it, and
    the calls it makes do not either. *)
Lemma extract_volume_appends k step_file_path t :
  extract_volume k step_file_path t =
  (fst (extract_volume k step_file_path []),
   t ++ snd (extract_volume k step_file_path [])).
Proof.
  destruct k as [imp imp' newdoc impI ins objsf close].
  run_extract_volume.
  repeat (rewrite ?for_loop_aggregate; simpl; try case_outcome);
    rewrite <- ?app_assoc; reflexivity.
Qed.

(** Past the import, the function closes the document and decides on the
    total alone. *)
Lemma extract_volume_imported k step_file_path name objs total n t :
  imported k step_file_path name objs ->
  aggregate objs (num_zero, 0%Z) = Ok (total, n) ->
  FreeCAD_closeDocument k name = Ok tt ->
  fst (extract_volume k step_file_path t) =
  Ok (Some (if num_le0 total
            then error_dict "No valid solid objects found in STEP file"
            else success_dict (num_div1000 total) n)).
Proof.
  intros [Hav Hnew HI Hins Hobjs] Hagg Hclose.
  destruct k as [imp imp' newdoc impI ins objsf close].
  unfold FreeCAD_available in Hav. simpl in *.
  run_extract_volume.
  destruct Hav as [-> | (e & -> & He & ->)]; simpl.
  - rewrite Hnew; simpl. rewrite HI; simpl. rewrite Hins; simpl.
    rewrite Hobjs; simpl. rewrite for_loop_aggregate, Hagg; simpl.
    rewrite Hclose; simpl. destruct (num_le0 total); reflexivity.
  - unfold is_ImportError in He. destruct (exn_cls e); try discriminate; simpl.
    rewrite Hnew; simpl. rewrite HI; simpl. rewrite Hins; simpl.
    rewrite Hobjs; simpl. rewrite for_loop_aggregate, Hagg; simpl.
    rewrite Hclose; simpl. destruct (num_le0 total); reflexivity.
Qed.

Lemma for_loop_normal objs acc acc' t :
  fst (for_loop objs acc t) = Normal acc' -> aggregate objs acc = Ok acc'.
Proof.
  rewrite for_loop_aggregate. cbn [fst].
  destruct (aggregate objs acc); intros H; inversion H; reflexivity.
Qed.

(** A successful result comes out of a completed loop whose total passed
    the guard of line 50. *)
Lemma extract_volume_success_inv k step_file_path t d :
  fst (extract_volume k step_file_path t) = Ok (Some d) ->
  is_success_shape d = true ->
  exists objs total n,
    aggregate objs (num_zero, 0%Z) = Ok (total, n)
    /\ num_le0 total = false
    /\ d = success_dict (num_div1000 total) n.
Proof.
  destruct k as [imp imp' newdoc impI ins objsf close].
  run_extract_volume.
  repeat (rewrite ?for_loop_aggregate; simpl; try case_outcome);
    intros H Hs; inversion H; subst d; try discriminate Hs; eauto 6.
Qed.

(** ** Documents *)

Lemma contribution_is_solid o v :
  contribution o = Ok (Some v) -> is_solid o v.
Proof.
  unfold contribution, hasattr, is_solid.
  destruct (Shape o) as [s | e]; [| destruct (exn_cls e); discriminate].
  destruct (Volume s) as [v' | e] eqn:Hv; [| destruct (exn_cls e); discriminate].
  destruct (num_gt0 v') eqn:Hpos; intros H; inversion H; subst.
  exists s. auto.
Qed.

Lemma positive_volumes_gt0 objs :
  Forall (fun v => num_gt0 v = true) (positive_volumes objs).
Proof.
  unfold positive_volumes. induction objs as [| o rest IH]; cbn [flat_map].
  - constructor.
  - destruct (contribution o) as [[v |] | e] eqn:Hc; cbn [app]; auto.
    constructor; [| exact IH].
    apply contribution_is_solid in Hc. destruct Hc as (s & _ & _ & Hpos). exact Hpos.
Qed.

Lemma positive_volumes_solid objs o v :
  In o objs -> is_solid o v -> positive_volumes objs <> [].
Proof.
  intros Hin Hsolid. apply is_solid_contribution in Hsolid.
  unfold positive_volumes. intros Hnil.
  assert (Hv : In v (flat_map (fun o => match contribution o with
                                        | Ok (Some v) => [v]
                                        | _ => []
                                        end) objs)).
  { apply in_flat_map. exists o. rewrite Hsolid. split; [assumption | left; reflexivity]. }
  rewrite Hnil in Hv. exact Hv.
Qed.

Lemma positive_volumes_witness objs :
  positive_volumes objs <> [] -> exists o v, In o objs /\ is_solid o v.
Proof.
  unfold positive_volumes. intros Hne.
  destruct (flat_map _ objs) as [| v vs] eqn:E; [contradiction |].
  assert (Hv : In v (v :: vs)) by (left; reflexivity).
  rewrite <- E in Hv. apply in_flat_map in Hv. destruct Hv as (o & Hin & Hv).
  destruct (contribution o) as [[v' |] | e] eqn:Hc; try contradiction.
  destruct Hv as [-> | []].
  exists o, v. split; [assumption | apply contribution_is_solid; assumption].
Qed.

Lemma solids_of_positive_volumes objs vs :
  solids_of objs vs -> positive_volumes objs = vs.
Proof.
  unfold positive_volumes.
  induction 1 as [| o v rest vs Hs _ IH | o rest vs Hs _ IH]; cbn [flat_map].
  - reflexivity.
  - rewrite (is_solid_contribution _ _ Hs), IH. reflexivity.
  - rewrite (is_skipped_contribution _ Hs), IH. reflexivity.
Qed.

Lemma solids_of_aggregate objs vs :
  solids_of objs vs ->
  aggregate objs (num_zero, 0%Z) = Ok (sum_volumes vs, Z.of_nat (length vs)).
Proof.
  intros Hs.
  assert (HF : Forall (fun o => exists c, contribution o = Ok c) objs).
  { induction Hs as [| o v rest vs Hs _ IH | o rest vs Hs _ IH]; constructor; auto.
    - eexists. apply is_solid_contribution. eassumption.
    - eexists. apply is_skipped_contribution. assumption. }
  destruct (aggregate_total objs (num_zero, 0%Z) HF) as (total & n & Hagg).
  rewrite Hagg. apply aggregate_positive_volumes in Hagg.
  rewrite (solids_of_positive_volumes _ _ Hs) in Hagg.
  destruct Hagg as [-> ->]. reflexivity.
Qed.

(** ** Sums of positive volumes *)

Section Laws.

Context {L : NumberLaws V}.

Lemma fold_add_gt0 vs :
  Forall (fun v => num_gt0 v = true) vs ->
  forall a, num_gt0 a = true -> num_gt0 (fold_left num_add vs a) = true.
Proof.
  induction 1 as [| v vs Hv _ IH]; intros a Ha; cbn [fold_left].
  - exact Ha.
  - apply IH. apply gt0_add; assumption.
Qed.

Lemma sum_volumes_gt0 vs :
  vs <> [] -> Forall (fun v => num_gt0 v = true) vs ->
  num_gt0 (sum_volumes vs) = true.
Proof.
  unfold sum_volumes. intros Hne HF.
  destruct HF as [| v vs Hv HF]; [contradiction |].
  cbn [fold_left]. apply fold_add_gt0; [exact HF |].
  apply gt0_add_zero. exact Hv.
Qed.

(** The total of a completed loop is positive exactly when something was
    counted. *)
Lemma aggregate_gt0_iff objs total n :
  aggregate objs (num_zero, 0%Z) = Ok (total, n) ->
  (n = Z.of_nat (length (positive_volumes objs)))
  /\ (n = 0%Z -> total = num_zero)
  /\ (n <> 0%Z -> num_gt0 total = true).
Proof.
  intros Hagg. apply aggregate_positive_volumes in Hagg.
  cbn [fst snd] in Hagg. destruct Hagg as [Ht Hn].
  split; [lia |]. split; intros H0.
  - destruct (positive_volumes objs); [subst total; reflexivity |].
    cbn [length] in Hn. lia.
  - subst total. apply sum_volumes_gt0; [| apply positive_volumes_gt0].
    intros Hnil. rewrite Hnil in Hn. cbn [length] in Hn. lia.
Qed.

(** C3, amended: a document that was imported and holds N >= 1 solids of
    volumes V1..Vn (each [> 0]), with objects that lack a shape, lack a
    volume or have a volume that is not positive anywhere in between, and
    that [FreeCAD.closeDocument] then closes without raising, gives the
    success result with [object_count = N] and
    [volume = (V1 + ... + Vn) / 1000]; the skipped objects add nothing and
    raise nothing. *)
Theorem extract_volume_sums_the_solids k step_file_path name objs vs t :
  imported k step_file_path name objs ->
  FreeCAD_closeDocument k name = Ok tt ->
  solids_of objs vs ->
  vs <> [] ->
  fst (extract_volume k step_file_path t) =
  Ok (Some (success_dict (num_div1000 (sum_volumes vs)) (Z.of_nat (length vs)))).
Proof.
  intros Himp Hclose Hsolids Hne.
  rewrite (extract_volume_imported k step_file_path name objs
             (sum_volumes vs) (Z.of_nat (length vs)) t Himp
             (solids_of_aggregate objs vs Hsolids) Hclose).
  assert (Hpos : num_gt0 (sum_volumes vs) = true).
  { apply sum_volumes_gt0; [assumption |].
    rewrite <- (solids_of_positive_volumes objs vs Hsolids).
    apply positive_volumes_gt0. }
  rewrite (gt0_not_le0 _ Hpos). reflexivity.
Qed.

(** C10, amended: for a document that was imported, whose loop completed
    (no read raised anything but [AttributeError]) with total [total] and
    count [n], and that [FreeCAD.closeDocument] then closed without
    raising, the result is the NoSolidGeometry error exactly when nothing
    was counted; the total is [> 0] exactly when some object has a shape
    of positive volume, and any such object makes the result a success. *)
Theorem no_solid_geometry_iff_nothing_counted
    k step_file_path name objs total n t :
  imported k step_file_path name objs ->
  fst (for_loop objs (num_zero, 0%Z) []) = Normal (total, n) ->
  FreeCAD_closeDocument k name = Ok tt ->
  (fst (extract_volume k step_file_path t)
   = Ok (Some (error_dict "No valid solid objects found in STEP file"))
   <-> n = 0%Z)
  /\ (num_gt0 total = true <-> exists o v, In o objs /\ is_solid o v)
  /\ ((exists o v, In o objs /\ is_solid o v) ->
      fst (extract_volume k step_file_path t)
      = Ok (Some (success_dict (num_div1000 total) n))).
Proof.
  intros Himp Hloop Hclose. apply for_loop_normal in Hloop.
  rewrite (extract_volume_imported k step_file_path name objs total n t
             Himp Hloop Hclose).
  destruct (aggregate_gt0_iff objs total n Hloop) as (Hn & Hzero & Hpos).
  assert (Hsolid : (exists o v, In o objs /\ is_solid o v) -> n <> 0%Z).
  { intros (o & v & Hin & Hs). pose proof (positive_volumes_solid objs o v Hin Hs) as Hne.
    destruct (positive_volumes objs); [contradiction | cbn [length] in Hn; lia]. }
  split; [| split].
  - split.
    + intros H. destruct (Z.eq_dec n 0) as [E | E]; [exact E |].
      rewrite (gt0_not_le0 _ (Hpos E)) in H. discriminate H.
    + intros E. rewrite (Hzero E), le0_zero. reflexivity.
  - split.
    + intros Hgt. apply positive_volumes_witness. intros Hnil.
      rewrite Hnil in Hn. cbn [length] in Hn.
      rewrite (Hzero Hn), gt0_zero in Hgt. discriminate Hgt.
    + intros H. apply Hpos, Hsolid, H.
  - intros H. rewrite (gt0_not_le0 _ (Hpos (Hsolid H))). reflexivity.
Qed.

End Laws.

(** ** The claims that need no arithmetic *)

(** C4: on every input the function returns a dict and raises nothing, and
    the dict has exactly one of the two shapes: the four fields [volume],
    [units = cm3], [object_count], [success = true], or the single field
    [error]. *)
Theorem extract_volume_returns_exactly_one_shape k step_file_path t :
  exists d,
    fst (extract_volume k step_file_path t) = Ok (Some d)
    /\ ((exists volume n, d = success_dict volume n)
        \/ (exists msg, d = error_dict msg))
    /\ xorb (is_success_shape d) (is_error_shape d) = true.
Proof.
  destruct k as [imp imp' newdoc impI ins objsf close].
  run_extract_volume.
  repeat (rewrite ?for_loop_aggregate; simpl; try case_outcome);
    eexists; (split; [reflexivity |]); (split; [| reflexivity]);
    solve [left; eexists; eexists; reflexivity | right; eexists; reflexivity].
Qed.

(** C5, amended: for a document that was imported, whose loop completed
    with a total that is [<= 0] and that [FreeCAD.closeDocument] then
    closed without raising, the result is the error with message
    [No valid solid objects found in STEP file], never a success. *)
Theorem no_positive_total_is_an_error k step_file_path name objs total n t :
  imported k step_file_path name objs ->
  fst (for_loop objs (num_zero, 0%Z) []) = Normal (total, n) ->
  FreeCAD_closeDocument k name = Ok tt ->
  num_le0 total = true ->
  fst (extract_volume k step_file_path t)
  = Ok (Some (error_dict "No valid solid objects found in STEP file")).
Proof.
  intros Himp Hloop Hclose Hle. apply for_loop_normal in Hloop.
  rewrite (extract_volume_imported k step_file_path name objs total n t
             Himp Hloop Hclose).
  rewrite Hle. reflexivity.
Qed.

(** With one kernel record and the same path, the calls logged before an
    invocation change neither the dict it returns nor the calls it
    makes. *)
Lemma extract_volume_deterministic
    (json_dumps : option (@dict V) -> string) k step_file_path t1 t2 :
  fst (extract_volume k step_file_path t1)
  = fst (extract_volume k step_file_path t2)
  /\ (exists calls,
        snd (extract_volume k step_file_path t1) = t1 ++ calls
        /\ snd (extract_volume k step_file_path t2) = t2 ++ calls)
  /\ match fst (extract_volume k step_file_path t1),
           fst (extract_volume k step_file_path t2) with
     | Ok r1, Ok r2 => json_dumps r1 = json_dumps r2
     | _, _ => False
     end.
Proof.
  rewrite (extract_volume_appends k step_file_path t1).
  rewrite (extract_volume_appends k step_file_path t2).
  cbn [fst snd].
  split; [reflexivity |]. split; [eexists; split; reflexivity |].
  destruct (extract_volume_returns_a_shape k step_file_path []) as (d & -> & _).
  reflexivity.
Qed.

(** ** The command line *)

Section CommandLine.

Variable os_path_exists : string -> bool.
Variable json_dumps : option (@dict V) -> string.

Local Abbreviation script := (main os_path_exists json_dumps).

(** C6: with any number of positional arguments other than one, that is
    [len(sys.argv) != 2], [main] prints the usage line, exits with status
    1 and makes no call into the kernel. *)
Theorem main_usage_error k argv :
  length argv <> 2%nat ->
  script k argv
  = {| stdout := [usage_line]; exit_status := 1; kernel_calls := [] |}
  /\ exit_status (script k argv) <> 0%Z.
Proof.
  intros Hlen. unfold main.
  destruct (Nat.eqb (length argv) 2) eqn:E.
  - apply Nat.eqb_eq in E. contradiction.
  - cbn. split; [reflexivity | lia].
Qed.

(** C7: with one argument naming a path that does not exist, [main]
    prints the file-not-found line, exits with status 1, and
    [extract_volume] is not called: no call reaches the kernel. *)
Theorem main_file_not_found k prog step_file_path :
  os_path_exists step_file_path = false ->
  script k [prog; step_file_path]
  = {| stdout := [not_found_line]; exit_status := 1; kernel_calls := [] |}.
Proof.
  intros Hmissing. unfold main. cbn. rewrite Hmissing. reflexivity.
Qed.

(** The exit status is 0 exactly when there is one argument and its path
    exists. *)
Lemma main_exit_status k argv :
  exit_status (script k argv) = 0%Z
  <-> length argv = 2%nat /\ os_path_exists (nth 1 argv "") = true.
Proof.
  unfold main.
  destruct (Nat.eqb (length argv) 2) eqn:E; cbn.
  - apply Nat.eqb_eq in E.
    destruct (os_path_exists (nth 1 argv "")) eqn:Hex; cbn.
    + destruct (extract_volume_returns_a_shape k (nth 1 argv "") [])
        as (d & Hd & _).
      destruct (extract_volume k (nth 1 argv "") []) as [r calls].
      cbn [fst] in Hd. subst r. cbn. tauto.
    + split; [lia | intros [_ H]; discriminate H].
  - apply Nat.eqb_neq in E. split; [lia | tauto].
Qed.

(** C8: with one argument naming an existing path, [main] prints the dict
    that [extract_volume] returned, success or error, as one line of JSON
    and exits with status 0; a non-zero status means a wrong argument
    count or a missing file. *)
Theorem main_prints_service_result k prog step_file_path :
  os_path_exists step_file_path = true ->
  (exists d,
     fst (extract_volume k step_file_path []) = Ok (Some d)
     /\ xorb (is_success_shape d) (is_error_shape d) = true
     /\ script k [prog; step_file_path]
        = {| stdout := [json_dumps (Some d)];
             exit_status := 0;
             kernel_calls := snd (extract_volume k step_file_path []) |})
  /\ (forall argv,
        exit_status (script k argv) <> 0%Z ->
        length argv <> 2%nat \/ os_path_exists (nth 1 argv "") = false).
Proof.
  intros Hexists. split.
  - destruct (extract_volume_returns_a_shape k step_file_path [])
      as (d & Hd & Hshape).
    exists d. split; [exact Hd |]. split; [exact Hshape |].
    unfold main. cbn. rewrite Hexists. cbn.
    destruct (extract_volume k step_file_path []) as [r calls].
    cbn [fst] in Hd. subst r. reflexivity.
  - intros argv Hstatus.
    destruct (Nat.eq_dec (length argv) 2) as [Hlen | Hlen]; [| left; exact Hlen].
    destruct (os_path_exists (nth 1 argv "")) eqn:Hex; [| right; reflexivity].
    exfalso. apply Hstatus. apply main_exit_status. split; assumption.
Qed.

End CommandLine.

End Properties.

(** * Binary64

    The laws of [NumberLaws] for Python's [float], from the specification
    of the primitive operations: a sum of values that are [> 0] is [> 0]
    (finite or infinite, never a NaN and never rounded to zero), and a
    quotient by 1000 of such a value is not negative. *)

Section Binary64.

Local Open Scope Z_scope.

(** [shr_1] halves a mantissa that is not negative. *)
Lemma shr_1_div2 mrs : 0 <= shr_m mrs -> shr_m (shr_1 mrs) = Z.div2 (shr_m mrs).
Proof.
  destruct mrs as [m r s]; simpl; intros H.
  destruct m as [| p | p]; [reflexivity | destruct p; reflexivity | lia].
Qed.

Lemma iter_shr_1 p : forall mrs,
  0 <= shr_m mrs ->
  shr_m (iter_pos shr_1 p mrs) = shr_m mrs / 2 ^ Zpos p.
Proof.
  assert (Hstep : forall mrs, 0 <= shr_m mrs ->
            shr_m (shr_1 mrs) = shr_m mrs / 2 /\ 0 <= shr_m (shr_1 mrs)).
  { intros mrs H. rewrite shr_1_div2 by assumption. rewrite Z.div2_div.
    split; [reflexivity | apply Z.div_pos; lia]. }
  induction p as [p IH | p IH |]; intros mrs H; cbn [iter_pos].
  - destruct (Hstep mrs H) as [E1 P1].
    assert (P2 : 0 <= shr_m (iter_pos shr_1 p (shr_1 mrs))).
    { rewrite IH by assumption. apply Z.div_pos; [assumption | lia]. }
    rewrite IH by assumption. rewrite IH by assumption. rewrite E1.
    rewrite !Z.div_div by lia. f_equal.
    replace (Z.pos p~1) with (1 + Z.pos p + Z.pos p) by lia.
    rewrite !Z.pow_add_r by lia. rewrite Z.pow_1_r. ring.
  - assert (P2 : 0 <= shr_m (iter_pos shr_1 p mrs)).
    { rewrite IH by assumption. apply Z.div_pos; [assumption | lia]. }
    rewrite IH by assumption. rewrite IH by assumption.
    rewrite !Z.div_div by lia. f_equal.
    replace (Z.pos p~0) with (Z.pos p + Z.pos p) by lia.
    rewrite !Z.pow_add_r by lia. ring.
  - rewrite Z.pow_1_r. apply Hstep. assumption.
Qed.

Lemma digits2_pos_lower p : 2 ^ (Zpos (digits2_pos p) - 1) <= Zpos p.
Proof.
  induction p as [p IH | p IH |]; simpl digits2_pos.
  - rewrite Pos2Z.inj_succ. replace (Z.succ (Zpos (digits2_pos p)) - 1) with (Z.succ (Zpos (digits2_pos p) - 1)) by lia.
    rewrite Z.pow_succ_r by lia. lia.
  - rewrite Pos2Z.inj_succ. replace (Z.succ (Zpos (digits2_pos p)) - 1) with (Z.succ (Zpos (digits2_pos p) - 1)) by lia.
    rewrite Z.pow_succ_r by lia. lia.
  - simpl. lia.
Qed.

Lemma shr_m_of_loc m l : shr_m (shr_record_of_loc m l) = m.
Proof. destruct l as [| []]; reflexivity. Qed.

Lemma shr_fexp_positive m e l :
  0 < m -> -1074 <= e ->
  0 < shr_m (fst (shr_fexp prec emax m e l))
  /\ -1074 <= snd (shr_fexp prec emax m e l).
Proof.
  intros Hm He. unfold shr_fexp, shr.
  destruct (fexp prec emax (Zdigits2 m + e) - e) as [| n | n] eqn:En;
    cbn [fst snd]; rewrite ?shr_m_of_loc; try (split; lia).
  rewrite iter_shr_1 by (rewrite shr_m_of_loc; lia).
  rewrite shr_m_of_loc.
  destruct m as [| q | q]; try lia.
  unfold fexp, SpecFloat.emin, prec, emax in En. cbn [Zdigits2] in En.
  pose proof (digits2_pos_lower q) as Hq.
  assert (Hn : Z.pos n <= Z.pos (digits2_pos q) - 1) by lia.
  split; [| lia].
  apply Z.div_str_pos. split; [apply Z.pow_pos_nonneg; lia |].
  transitivity (2 ^ (Z.pos (digits2_pos q) - 1)); [| assumption].
  apply Z.pow_le_mono_r; lia.
Qed.

Lemma shr_fexp_nonneg m e l :
  0 <= m -> 0 <= shr_m (fst (shr_fexp prec emax m e l)).
Proof.
  intros Hm. unfold shr_fexp, shr.
  destruct (fexp prec emax (Zdigits2 m + e) - e) as [| n | n];
    cbn [fst]; rewrite ?shr_m_of_loc; try lia.
  rewrite iter_shr_1 by (rewrite shr_m_of_loc; lia).
  rewrite shr_m_of_loc. apply Z.div_pos; [lia | apply Z.pow_pos_nonneg; lia].
Qed.

Lemma round_nearest_even_ge m l : m <= round_nearest_even m l.
Proof.
  destruct l as [| []]; cbn [round_nearest_even]; try lia.
  destruct (Z.even m); lia.
Qed.

Lemma binary_round_aux_positive m e l :
  0 < m -> -1074 <= e ->
  sf_positive (binary_round_aux prec emax false m e l) = true.
Proof.
  intros Hm He. unfold binary_round_aux.
  destruct (shr_fexp_positive m e l Hm He) as [H1 H2].
  destruct (shr_fexp prec emax m e l) as [mrs' e'] eqn:E1. cbn [fst snd] in H1, H2.
  set (m' := round_nearest_even (shr_m mrs') (loc_of_shr_record mrs')).
  assert (Hm' : 0 < m').
  { pose proof (round_nearest_even_ge (shr_m mrs') (loc_of_shr_record mrs')). subst m'. lia. }
  destruct (shr_fexp_positive m' e' loc_Exact Hm' H2) as [H3 _].
  destruct (shr_fexp prec emax m' e' loc_Exact) as [mrs'' e''] eqn:E2. cbn [fst] in H3.
  destruct (shr_m mrs'') as [| q | q]; try lia.
  destruct (e'' <=? emax - prec); reflexivity.
Qed.

Lemma binary_round_aux_nonneg m e l :
  0 <= m ->
  sf_nonneg (binary_round_aux prec emax false m e l) = true.
Proof.
  intros Hm. unfold binary_round_aux.
  pose proof (shr_fexp_nonneg m e l Hm) as H1.
  destruct (shr_fexp prec emax m e l) as [mrs' e'] eqn:E1. cbn [fst] in H1.
  set (m' := round_nearest_even (shr_m mrs') (loc_of_shr_record mrs')).
  assert (Hm' : 0 <= m').
  { pose proof (round_nearest_even_ge (shr_m mrs') (loc_of_shr_record mrs')). subst m'. lia. }
  pose proof (shr_fexp_nonneg m' e' loc_Exact Hm') as H3.
  destruct (shr_fexp prec emax m' e' loc_Exact) as [mrs'' e''] eqn:E2. cbn [fst] in H3.
  destruct (shr_m mrs'') as [| q | q]; try lia; try reflexivity.
  destruct (e'' <=? emax - prec); reflexivity.
Qed.

Lemma binary_round_positive m e :
  -1074 <= e -> sf_positive (binary_round prec emax false m e) = true.
Proof.
  intros He. unfold binary_round, shl_align.
  set (e' := fexp prec emax (Z.pos (digits2_pos m) + e)).
  assert (He' : -1074 <= e') by (subst e'; unfold fexp, SpecFloat.emin, prec, emax; lia).
  destruct (e' - e); apply binary_round_aux_positive; lia.
Qed.

Lemma valid_binary_emin s m e :
  valid_binary (S754_finite s m e) = true -> -1074 <= e.
Proof.
  cbn [SpecFloat.valid_binary]. unfold bounded, canonical_mantissa.
  intros H. apply andb_prop in H. destruct H as [H _].
  apply Z.eqb_eq in H. unfold fexp, SpecFloat.emin, prec, emax in H. lia.
Qed.

Lemma SF64add_positive x y :
  valid_binary x = true -> valid_binary y = true ->
  sf_positive x = true -> sf_positive y = true ->
  sf_positive (SF64add x y) = true.
Proof.
  intros Vx Vy Px Py.
  destruct x as [[|] | [|] | | [|] mx ex]; try discriminate;
  destruct y as [[|] | [|] | | [|] my ey]; try discriminate; try reflexivity.
  apply valid_binary_emin in Vx, Vy.
  unfold SF64add, SFadd, binary_normalize, cond_Zopp.
  cbn [Z.add]. apply binary_round_positive. lia.
Qed.

Lemma Prim2SF_zero : Prim2SF 0%float = S754_zero false.
Proof. reflexivity. Qed.

Lemma Prim2SF_1000 : Prim2SF 1000%float = S754_finite false 8796093022208000 (-43).
Proof. reflexivity. Qed.

Lemma float_gt0_positive x :
  (0 <? x)%float = true <-> sf_positive (Prim2SF x) = true.
Proof.
  rewrite ltb_spec, Prim2SF_zero. unfold SFltb, SFcompare.
  destruct (Prim2SF x) as [[|] | [|] | | [|] m e]; cbn; split; congruence.
Qed.

Lemma float_le0_positive x :
  sf_positive (Prim2SF x) = true -> (x <=? 0)%float = false.
Proof.
  rewrite leb_spec, Prim2SF_zero. unfold SFleb, SFcompare.
  destruct (Prim2SF x) as [[|] | [|] | | [|] m e]; cbn; congruence.
Qed.

Lemma float_ge0_nonneg x :
  sf_nonneg (Prim2SF x) = true -> (0 <=? x)%float = true.
Proof.
  rewrite leb_spec, Prim2SF_zero. unfold SFleb, SFcompare.
  destruct (Prim2SF x) as [[|] | [|] | | [|] m e]; cbn; congruence.
Qed.

Lemma float_add_positive a x :
  (0 <? a)%float = true -> (0 <? x)%float = true -> (0 <? a + x)%float = true.
Proof.
  rewrite !float_gt0_positive, add_spec.
  apply SF64add_positive; apply Prim2SF_valid.
Qed.

Lemma float_add_zero_positive x :
  (0 <? x)%float = true -> (0 <? 0 + x)%float = true.
Proof.
  rewrite !float_gt0_positive, add_spec, Prim2SF_zero.
  destruct (Prim2SF x) as [[|] | [|] | | [|] m e]; cbn; congruence.
Qed.

Lemma SFdiv_core_binary_nonneg mx ex my ey :
  0 <= fst (fst (SFdiv_core_binary prec emax (Z.pos mx) ex (Z.pos my) ey)).
Proof.
  unfold SFdiv_core_binary.
  set (s := _ - _ - Z.min _ _).
  set (m' := match s with Z.pos _ => Z.shiftl (Z.pos mx) s | 0 => Z.pos mx | Z.neg _ => 0 end).
  assert (Hm' : 0 <= m').
  { subst m'. destruct s; try lia. apply Z.shiftl_nonneg. lia. }
  pose proof (Z_div_mod m' (Z.pos my) ltac:(lia)) as H.
  destruct (Z.div_eucl m' (Z.pos my)) as [q r]. cbn [fst]. nia.
Qed.

Lemma float_div1000_nonneg x :
  (0 <? x)%float = true -> (0 <=? x / 1000)%float = true.
Proof.
  rewrite float_gt0_positive. intros Hx. apply float_ge0_nonneg.
  rewrite div_spec, Prim2SF_1000. unfold SF64div, SFdiv.
  destruct (Prim2SF x) as [[|] | [|] | | [|] mx ex]; try discriminate; try reflexivity.
  pose proof (SFdiv_core_binary_nonneg mx ex 8796093022208000 (-43)) as H.
  destruct (SFdiv_core_binary prec emax (Z.pos mx) ex _ _) as [[mz ez] lz].
  cbn [fst] in H. apply binary_round_aux_nonneg. assumption.
Qed.

End Binary64.

#[export] Instance float_NumberLaws : NumberLaws float := {
  le0_zero := eq_refl;
  gt0_zero := eq_refl;
  gt0_not_le0 := fun x H => float_le0_positive x (proj1 (float_gt0_positive x) H);
  gt0_add_zero := float_add_zero_positive;
  gt0_add := float_add_positive
}.

(** * Exact arithmetic *)

Lemma Q_gt0_iff (x : Q) : num_gt0 x = true <-> (0 < x)%Q.
Proof.
  cbn. rewrite negb_true_iff. split.
  - intros H. apply Qnot_le_lt. intros Hle.
    apply Qle_bool_iff in Hle. congruence.
  - intros H. destruct (Qle_bool x 0) eqn:E; [| reflexivity].
    apply Qle_bool_iff in E. exfalso. exact (Qlt_not_le _ _ H E).
Qed.

Lemma Q_gt0_add (a x : Q) :
  num_gt0 a = true -> num_gt0 x = true -> num_gt0 (num_add a x) = true.
Proof.
  rewrite !Q_gt0_iff. cbn. intros Ha Hx.
  apply (Qplus_lt_le_compat 0 a 0 x); [exact Ha | apply Qlt_le_weak; exact Hx].
Qed.

Lemma Q_gt0_add_zero (x : Q) :
  num_gt0 x = true -> num_gt0 (num_add num_zero x) = true.
Proof.
  rewrite !Q_gt0_iff. cbn. intros Hx. rewrite Qplus_0_l. exact Hx.
Qed.

Lemma Q_gt0_div1000 (x : Q) :
  num_gt0 x = true -> num_gt0 (num_div1000 x) = true.
Proof.
  rewrite !Q_gt0_iff. cbn. intros Hx.
  apply Qlt_shift_div_l; [reflexivity |]. rewrite Qmult_0_l. exact Hx.
Qed.

#[export] Instance Q_NumberLaws : NumberLaws Q := {
  le0_zero := eq_refl;
  gt0_zero := eq_refl;
  gt0_not_le0 := fun x H => proj1 (negb_true_iff _) H;
  gt0_add_zero := Q_gt0_add_zero;
  gt0_add := Q_gt0_add
}.

#[export] Instance Q_ExactDivision : ExactDivision Q := {
  gt0_div1000 := Q_gt0_div1000
}.

(** * The invariant of a success result *)

(** In exact arithmetic the returned volume itself is [> 0]. *)
Lemma success_invariant_exact
    {V : Type} {N : Number V} {L : NumberLaws V} {E : ExactDivision V}
    (k : @Kernel V) (step_file_path : string) (t : trace) (d : @dict V) :
  fst (extract_volume k step_file_path t) = Ok (Some d) ->
  is_success_shape d = true ->
  exists volume n,
    d = success_dict volume n /\ num_gt0 volume = true /\ (1 <= n)%Z.
Proof.
  intros Hrun Hshape.
  destruct (extract_volume_success_inv k step_file_path t d Hrun Hshape)
    as (objs & total & n & Hagg & Hle & ->).
  destruct (aggregate_gt0_iff objs total n Hagg) as (Hn & Hzero & Hpos).
  assert (Hne : n <> 0%Z).
  { intros E0. rewrite (Hzero E0), le0_zero in Hle. discriminate Hle. }
  exists (num_div1000 total), n. split; [reflexivity |].
  split; [apply gt0_div1000, Hpos, Hne | lia].
Qed.

(** C2, as stated, fails in binary64: one solid of volume 2^-1074 mm3
    passes the guard of line 50, and its quotient by 1000.0 rounds to 0.0,
    which is returned with [success = true]. *)
Lemma success_with_zero_volume :
  ~ (forall (k : @Kernel float) (step_file_path : string) (t : trace)
            (volume : float) (n : Z),
        fst (extract_volume k step_file_path t)
        = Ok (Some (success_dict volume n)) ->
        num_gt0 volume = true /\ (1 <= n)%Z).
Proof.
  intros H.
  assert (Hrun : fst (extract_volume kernel_tiny_solid "tiny.step" [])
                 = Ok (Some (success_dict 0%float 1%Z))) by reflexivity.
  destruct (H _ _ _ _ _ Hrun) as [Hvolume _].
  discriminate Hvolume.
Qed.

(** * The release of the document *)

(** C1: the kernel creates the document and imports the file, then
    [doc.Objects] raises.  The handler of line 63 turns the exception into
    an error result, and [FreeCAD.closeDocument] was never called: the
    function has no [finally], unlike what the claim requires. *)
Theorem extract_volume_leaks_document_on_unexpected_exception :
  fst (extract_volume kernel_objects_raise "part.step" [])
  = Ok (Some (error_dict "Volume extraction failed: document is corrupt"))
  /\ snd (extract_volume kernel_objects_raise "part.step" [])
     = [ev_import "FreeCAD";
        ev_newDocument "VolumeExtraction" (Ok "VolumeExtraction");
        ev_import "Import";
        ev_insert "part.step" "VolumeExtraction"]
  /\ ~ In (ev_closeDocument "VolumeExtraction")
          (snd (extract_volume kernel_objects_raise "part.step" [])).
Proof.
  split; [reflexivity |]. split; [reflexivity |].
  cbn. intros [H | [H | [H | [H | []]]]]; discriminate H.
Qed.

(** On every other exit the document that was created is closed: when the
    result is a success, the NoSolidGeometry error or the import error,
    [FreeCAD.closeDocument] was called on it. *)
Lemma closeDocument_called_on_the_other_exits
    {V : Type} {N : Number V} (k : @Kernel V) (step_file_path name : string)
    (d : @dict V) :
  In (ev_newDocument "VolumeExtraction" (Ok name))
     (snd (extract_volume k step_file_path [])) ->
  fst (extract_volume k step_file_path []) = Ok (Some d) ->
  (is_success_shape d = true
   \/ d = error_dict "No valid solid objects found in STEP file"
   \/ exists e, d = error_dict ("Failed to import STEP file: " ++ exn_str e)) ->
  In (ev_closeDocument name) (snd (extract_volume k step_file_path [])).
Proof.
  destruct k as [imp imp' newdoc impI ins objsf close].
  unfold extract_volume, call_function, extract_volume_body,
    import_FreeCAD_stmt, import_STEP_stmt, try_except, bind, call, eval,
    return_, ret, is_Exception, is_ImportError; simpl.
  repeat (rewrite ?for_loop_aggregate; simpl;
          try match goal with
            | |- context [let '(_, _) := ?p in _] => is_var p; destruct p; simpl
            | |- context [match ?o with Ok _ => _ | Raise _ => _ end] =>
                destruct o eqn:?; simpl
            | |- context [match exn_cls ?e with _ => _ end] =>
                destruct (exn_cls e) eqn:?; simpl
            | |- context [if ?b then _ else _] => destruct b eqn:?; simpl
            end);
    intros Hnew Hrun Hd; inversion Hrun; subst d;
    repeat match goal with
      | H : _ \/ _ |- _ => destruct H
      | H : exists _, _ |- _ => destruct H
      | H : False |- _ => destruct H
      | H : ev_newDocument _ _ = ev_newDocument _ _ |- _ =>
          inversion H; subst; clear H
      | H : _ = _ |- _ => discriminate H
      end;
    repeat (first [left; reflexivity | right]).
Qed.

(** * The theorems at concrete documents *)

Lemma kernel_with_imported {V : Type} (objs : list (@obj V)) (path : string) :
  imported (kernel_with (Ok objs)) path "VolumeExtraction" objs.
Proof.
  constructor; try reflexivity. left. reflexivity.
Defined.

Lemma datum_is_skipped {V : Type} {N : Number V} : is_skipped (@datum V).
Proof.
  eapply skipped_no_shape; reflexivity.
Defined.

Lemma open_shape_is_skipped {V : Type} {N : Number V} : is_skipped (@open_shape V).
Proof.
  eapply skipped_no_volume; reflexivity.
Defined.

(** 1500 mm3 and 2500 mm3 among three skipped objects: 4.0 cm3, two
    objects. *)
Lemma extract_volume_sums_the_solids_witness :
  fst (extract_volume kernel_two_solids "part.step" [])
  = Ok (Some (success_dict 4%float 2%Z)).
Proof.
  refine (eq_trans
            (extract_volume_sums_the_solids
               kernel_two_solids "part.step" "VolumeExtraction"
               [datum; solid 1500%float; open_shape; solid 0%float; solid 2500%float]
               [1500%float; 2500%float] [] _ _ _ _) _);
    [| | | | reflexivity].
  - apply kernel_with_imported.
  - reflexivity.
  - apply solids_skipped; [apply datum_is_skipped |].
    apply solids_solid; [eexists; repeat split; reflexivity |].
    apply solids_skipped; [apply open_shape_is_skipped |].
    apply solids_skipped; [eapply skipped_not_positive; reflexivity |].
    apply solids_solid; [eexists; repeat split; reflexivity |].
    apply solids_nil.
  - discriminate.
Defined.

(** A datum and a zero-volume solid only: the NoSolidGeometry error. *)
Lemma no_positive_total_is_an_error_witness :
  fst (extract_volume kernel_no_solid "surfaces.step" [])
  = Ok (Some (error_dict "No valid solid objects found in STEP file")).
Proof.
  apply (no_positive_total_is_an_error
           kernel_no_solid "surfaces.step" "VolumeExtraction"
           [datum; solid 0%float] 0%float 0%Z []).
  - apply kernel_with_imported.
  - reflexivity.
  - reflexivity.
  - reflexivity.
Defined.

(** The same two solids in exact arithmetic: counted, hence a success. *)
Lemma no_solid_geometry_iff_nothing_counted_witness :
  (fst (extract_volume kernel_two_solids_Q "part.step" [])
   = Ok (Some (error_dict "No valid solid objects found in STEP file"))
   <-> 2%Z = 0%Z)
  /\ (num_gt0 (4000 # 1) = true
      <-> exists o v,
            In o [datum; solid (1500 # 1); open_shape; solid 0%Q; solid (2500 # 1)]
            /\ is_solid o v)
  /\ ((exists o v,
         In o [datum; solid (1500 # 1); open_shape; solid 0%Q; solid (2500 # 1)]
         /\ is_solid o v) ->
      fst (extract_volume kernel_two_solids_Q "part.step" [])
      = Ok (Some (success_dict (num_div1000 (4000 # 1)) 2%Z))).
Proof.
  apply (no_solid_geometry_iff_nothing_counted
           kernel_two_solids_Q "part.step" "VolumeExtraction"
           [datum; solid (1500 # 1); open_shape; solid 0%Q; solid (2500 # 1)]
           (4000 # 1) 2%Z []).
  - apply kernel_with_imported.
  - reflexivity.
  - reflexivity.
Defined.

(** No argument at all: [sys.argv] holds the program name only. *)
Lemma main_usage_error_witness :
  main (fun _ => true) (fun _ => "") kernel_two_solids ["extract_volume.py"]
  = {| stdout := [usage_line]; exit_status := 1; kernel_calls := [] |}
  /\ exit_status
       (main (fun _ => true) (fun _ => "") kernel_two_solids ["extract_volume.py"])
     <> 0%Z.
Proof.
  apply (main_usage_error (fun _ => true) (fun _ => "") kernel_two_solids
           ["extract_volume.py"]).
  cbn. discriminate.
Defined.

(** A path that does not exist. *)
Lemma main_file_not_found_witness :
  main (fun _ => false) (fun _ => "") kernel_two_solids
       ["extract_volume.py"; "missing.step"]
  = {| stdout := [not_found_line]; exit_status := 1; kernel_calls := [] |}.
Proof.
  apply (main_file_not_found (fun _ => false) (fun _ => "") kernel_two_solids
           "extract_volume.py" "missing.step").
  reflexivity.
Defined.

(** An existing file whose document holds no solid: the error is printed
    and the status is 0. *)
Lemma main_prints_service_result_witness :
  (exists d,
     fst (extract_volume kernel_no_solid "surfaces.step" []) = Ok (Some d)
     /\ xorb (is_success_shape d) (is_error_shape d) = true
     /\ main (fun _ => true) (fun _ => "printed") kernel_no_solid
             ["extract_volume.py"; "surfaces.step"]
        = {| stdout := ["printed"];
             exit_status := 0;
             kernel_calls := snd (extract_volume kernel_no_solid "surfaces.step" []) |})
  /\ (forall argv,
        exit_status (main (fun _ => true) (fun _ => "printed") kernel_no_solid argv)
        <> 0%Z ->
        length argv <> 2%nat \/ (fun _ : string => true) (nth 1 argv "") = false).
Proof.
  apply (main_prints_service_result (fun _ => true) (fun _ => "printed")
           kernel_no_solid "extract_volume.py" "surfaces.step").
  reflexivity.
Defined.

From Stdlib Require Import Permutation.

(** * The other exits of [extract_volume] *)

(** The kernel [k] as it behaves when [import FreeCAD] needs the fallback
    directories: the first attempt raises [e], the second succeeds. *)
Definition needing_fallback {V : Type} (k : @Kernel V) (e : exn) : @Kernel V := {|
  import_FreeCAD := Raise e;
  import_FreeCAD_retry := Ok tt;
  FreeCAD_newDocument := FreeCAD_newDocument k;
  import_Import := import_Import k;
  Import_insert := Import_insert k;
  doc_Objects := doc_Objects k;
  FreeCAD_closeDocument := FreeCAD_closeDocument k
|}.

(** The names given to [FreeCAD.closeDocument], in call order. *)
Definition closed_documents (t : trace) : list string :=
  flat_map (fun ev => match ev with
                      | ev_closeDocument name => [name]
                      | _ => []
                      end) t.

(** The [(path, name)] pairs given to [Import.insert], in call order. *)
Definition inserted_files (t : trace) : list (string * string) :=
  flat_map (fun ev => match ev with
                      | ev_insert path name => [(path, name)]
                      | _ => []
                      end) t.

(** The labels given to [FreeCAD.newDocument], in call order. *)
Definition created_labels (t : trace) : list string :=
  flat_map (fun ev => match ev with
                      | ev_newDocument label _ => [label]
                      | _ => []
                      end) t.

(** The directories appended to [sys.path], in call order. *)
Definition appended_directories (t : trace) : list string :=
  flat_map (fun ev => match ev with
                      | ev_sys_path_append dir => [dir]
                      | _ => []
                      end) t.

(** An object on which the loop raises [e]: reading [Shape], or reading
    [Volume] of its shape, raises an exception that is not an
    [AttributeError]. *)
Inductive raises_in_loop {V : Type} (o : @obj V) (e : exn) : Prop :=
| raises_on_Shape :
    Shape o = Raise e -> exn_cls e <> AttributeError -> raises_in_loop o e
| raises_on_Volume (s : @shape V) :
    Shape o = Ok s -> Volume s = Raise e -> exn_cls e <> AttributeError ->
    raises_in_loop o e.

(** An object whose [Shape] read raises [RuntimeError]. *)
Definition broken_object {V : Type} : @obj V :=
  {| Shape := Raise (Exn OtherException "shape is invalid") |}.

(** A kernel with no FreeCAD on any path. *)
Definition kernel_not_installed : @Kernel float := {|
  import_FreeCAD := Raise (Exn ImportError "No module named 'FreeCAD'");
  import_FreeCAD_retry := Raise (Exn ImportError "No module named 'FreeCAD'");
  FreeCAD_newDocument := fun label => Ok label;
  import_Import := Ok tt;
  Import_insert := fun _ _ => Ok tt;
  doc_Objects := fun _ _ => Ok [];
  FreeCAD_closeDocument := fun _ => Ok tt
|}.

(** A kernel whose FreeCAD module crashes while it loads. *)
Definition kernel_import_crashes : @Kernel float := {|
  import_FreeCAD := Raise (Exn OtherException "libFreeCAD.so: undefined symbol");
  import_FreeCAD_retry := Ok tt;
  FreeCAD_newDocument := fun label => Ok label;
  import_Import := Ok tt;
  Import_insert := fun _ _ => Ok tt;
  doc_Objects := fun _ _ => Ok [];
  FreeCAD_closeDocument := fun _ => Ok tt
|}.

(** A kernel that rejects the file; [close] is what closing the document
    does. *)
Definition kernel_rejects_file (close : outcome unit) : @Kernel float := {|
  import_FreeCAD := Ok tt;
  import_FreeCAD_retry := Ok tt;
  FreeCAD_newDocument := fun label => Ok label;
  import_Import := Ok tt;
  Import_insert := fun _ _ => Raise (Exn OtherException "not a STEP file");
  doc_Objects := fun _ _ => Ok [];
  FreeCAD_closeDocument := fun _ => close
|}.

(** A kernel that cannot create a document. *)
Definition kernel_no_document : @Kernel float := {|
  import_FreeCAD := Ok tt;
  import_FreeCAD_retry := Ok tt;
  FreeCAD_newDocument := fun _ => Raise (Exn OtherException "cannot create document");
  import_Import := Ok tt;
  Import_insert := fun _ _ => Ok tt;
  doc_Objects := fun _ _ => Ok [];
  FreeCAD_closeDocument := fun _ => Ok tt
|}.

(** A kernel that imports two solids and then fails to close the
    document. *)
Definition kernel_close_fails : @Kernel float := {|
  import_FreeCAD := Ok tt;
  import_FreeCAD_retry := Ok tt;
  FreeCAD_newDocument := fun label => Ok label;
  import_Import := Ok tt;
  Import_insert := fun _ _ => Ok tt;
  doc_Objects := fun _ _ => Ok [solid 1500%float; solid 2500%float];
  FreeCAD_closeDocument := fun _ => Raise (Exn OtherException "document is locked")
|}.

Section Exits.

Context {V : Type} {N : Number V}.

Implicit Types (k : @Kernel V) (o : @obj V) (objs : list (@obj V)).
Implicit Types (t : trace) (d : @dict V) (e : exn).

Ltac run :=
  unfold extract_volume, call_function, extract_volume_body,
    import_FreeCAD_stmt, import_STEP_stmt, try_except, bind, call, eval,
    return_, ret, is_Exception, is_ImportError in *;
  simpl in *.

Ltac split_outcome :=
  match goal with
  | |- context [let '(_, _) := ?p in _] => is_var p; destruct p; simpl
  | |- context [match ?o with Ok _ => _ | Raise _ => _ end] =>
      destruct o eqn:?; simpl
  | |- context [match exn_cls ?e with _ => _ end] =>
      destruct (exn_cls e) eqn:?; simpl
  | |- context [if ?b then _ else _] => destruct b eqn:?; simpl
  end.

Ltac all_exits := repeat (rewrite ?for_loop_aggregate; simpl; try split_outcome).

(** X1: when [import FreeCAD] raises [ImportError] and raises it again
    once the three fallback directories are on [sys.path], the function
    returns the KernelUnavailable error; it has appended the three
    directories, in the order of lines 19-21, and has created no
    document. *)
Theorem kernel_unavailable_error k step_file_path e1 e2 :
  import_FreeCAD k = Raise e1 -> is_ImportError e1 = true ->
  import_FreeCAD_retry k = Raise e2 -> is_ImportError e2 = true ->
  extract_volume k step_file_path []
  = (Ok (Some (error_dict "FreeCAD not installed or not in PATH")),
     [ev_import "FreeCAD";
      ev_sys_path_append "/usr/lib/freecad-python3/lib";
      ev_sys_path_append "/usr/lib/freecad/lib";
      ev_sys_path_append "/Applications/FreeCAD.app/Contents/lib";
      ev_import "FreeCAD"]).
Proof.
  destruct k as [imp imp' newdoc impI ins objsf close]. simpl.
  intros -> H1 -> H2. run.
  destruct (exn_cls e1); try discriminate H1.
  destruct (exn_cls e2); try discriminate H2.
  reflexivity.
Qed.

(** X2: a kernel that needs the fallback directories gives the same
    result as the kernel found at once; the calls differ by the three
    appends and the second import only. *)
Theorem fallback_import_is_transparent k step_file_path e :
  import_FreeCAD k = Ok tt ->
  is_ImportError e = true ->
  fst (extract_volume (needing_fallback k e) step_file_path [])
  = fst (extract_volume k step_file_path [])
  /\ snd (extract_volume (needing_fallback k e) step_file_path [])
     = [ev_import "FreeCAD";
        ev_sys_path_append "/usr/lib/freecad-python3/lib";
        ev_sys_path_append "/usr/lib/freecad/lib";
        ev_sys_path_append "/Applications/FreeCAD.app/Contents/lib"]
       ++ snd (extract_volume k step_file_path []).
Proof.
  destruct k as [imp imp' newdoc impI ins objsf close]. simpl.
  intros -> He. unfold needing_fallback. run.
  destruct (exn_cls e); try discriminate He. simpl.
  all_exits; split; reflexivity.
Qed.

(** X3: an exception other than [ImportError] raised by [import FreeCAD],
    on the first attempt or on the second, is not reported as a missing
    kernel: it reaches the handler of line 63 and comes back as
    [Volume extraction failed: ...] with its message, and no document is
    created. *)
Theorem import_crash_is_an_internal_failure k step_file_path e :
  (import_FreeCAD k = Raise e /\ is_ImportError e = false)
  \/ (exists e1, import_FreeCAD k = Raise e1 /\ is_ImportError e1 = true
                 /\ import_FreeCAD_retry k = Raise e
                 /\ is_ImportError e = false) ->
  fst (extract_volume k step_file_path [])
  = Ok (Some (error_dict ("Volume extraction failed: " ++ exn_str e)))
  /\ created_labels (snd (extract_volume k step_file_path [])) = [].
Proof.
  destruct k as [imp imp' newdoc impI ins objsf close]. simpl.
  intros [[-> He] | (e1 & -> & He1 & -> & He)]; run.
  - destruct (exn_cls e); try discriminate He; split; reflexivity.
  - destruct (exn_cls e1); try discriminate He1.
    destruct (exn_cls e); try discriminate He; split; reflexivity.
Qed.

Lemma appended_directories_of_run k step_file_path :
  appended_directories (snd (extract_volume k step_file_path []))
  = match import_FreeCAD k with
    | Raise e =>
        if is_ImportError e
        then ["/usr/lib/freecad-python3/lib"; "/usr/lib/freecad/lib";
              "/Applications/FreeCAD.app/Contents/lib"]
        else []
    | Ok _ => []
    end.
Proof.
  destruct k as [imp imp' newdoc impI ins objsf close].
  unfold appended_directories. run. all_exits; reflexivity.
Qed.

(** X4: [sys.path] is extended exactly when the first [import FreeCAD]
    raised [ImportError], and then by the three directories of lines
    19-21, whether or not the second attempt succeeds; otherwise it is
    left alone. *)
Theorem sys_path_appended_iff_first_import_fails k step_file_path :
  (appended_directories (snd (extract_volume k step_file_path []))
   = ["/usr/lib/freecad-python3/lib"; "/usr/lib/freecad/lib";
      "/Applications/FreeCAD.app/Contents/lib"]
   <-> exists e, import_FreeCAD k = Raise e /\ is_ImportError e = true)
  /\ (appended_directories (snd (extract_volume k step_file_path [])) = []
      <-> ~ exists e, import_FreeCAD k = Raise e /\ is_ImportError e = true).
Proof.
  rewrite appended_directories_of_run.
  destruct (import_FreeCAD k) as [u | e].
  - split; split.
    + discriminate.
    + intros (e & He & _). discriminate He.
    + intros _ (e & He & _). discriminate He.
    + reflexivity.
  - destruct (is_ImportError e) eqn:He; split; split.
    + intros _. exists e. split; [reflexivity | exact He].
    + reflexivity.
    + discriminate.
    + intros H. exfalso. apply H. exists e. split; [reflexivity | exact He].
    + discriminate.
    + intros (e' & He' & Hc). inversion He'; subst. congruence.
    + intros _ (e' & He' & Hc). inversion He'; subst. congruence.
    + reflexivity.
Qed.

Ltac kernel_available Hav :=
  unfold FreeCAD_available in Hav; simpl in Hav;
  let e0 := fresh "e0" in
  let He0 := fresh "He0" in
  destruct Hav as [-> | (e0 & -> & He0 & ->)];
  run;
  try match goal with
    | H : match exn_cls ?x with _ => _ end = true |- _ =>
        destruct (exn_cls x); try discriminate H; simpl
    end.

(** X5: when the kernel rejects the file, that is when [import Import] or
    [Import.insert] raises any exception, the function closes the document
    it created, once, and returns [Failed to import STEP file: ...] with
    the exception's message. *)
Theorem import_failure_closes_and_reports k step_file_path name e :
  FreeCAD_available k ->
  FreeCAD_newDocument k "VolumeExtraction" = Ok name ->
  import_Import k = Raise e
  \/ (import_Import k = Ok tt /\ Import_insert k step_file_path name = Raise e) ->
  FreeCAD_closeDocument k name = Ok tt ->
  fst (extract_volume k step_file_path [])
  = Ok (Some (error_dict ("Failed to import STEP file: " ++ exn_str e)))
  /\ closed_documents (snd (extract_volume k step_file_path [])) = [name].
Proof.
  destruct k as [imp imp' newdoc impI ins objsf close]. simpl.
  intros Hav Hnew Hrej Hclose. unfold closed_documents.
  kernel_available Hav; rewrite Hnew; simpl;
    (destruct Hrej as [-> | [-> Hins]]; simpl;
     [| rewrite Hins; simpl]; rewrite Hclose; simpl; split; reflexivity).
Qed.

(** X6: when the kernel rejects the file and closing the document raises
    too, the import diagnostic is lost: the exception of
    [FreeCAD.closeDocument] escapes the inner handler, and the result is
    [Volume extraction failed: ...] with the message of the close. *)
Theorem failed_close_hides_the_import_error k step_file_path name e e' :
  FreeCAD_available k ->
  FreeCAD_newDocument k "VolumeExtraction" = Ok name ->
  import_Import k = Raise e
  \/ (import_Import k = Ok tt /\ Import_insert k step_file_path name = Raise e) ->
  FreeCAD_closeDocument k name = Raise e' ->
  fst (extract_volume k step_file_path [])
  = Ok (Some (error_dict ("Volume extraction failed: " ++ exn_str e'))).
Proof.
  destruct k as [imp imp' newdoc impI ins objsf close]. simpl.
  intros Hav Hnew Hrej Hclose.
  kernel_available Hav; rewrite Hnew; simpl;
    (destruct Hrej as [-> | [-> Hins]]; simpl;
     [| rewrite Hins; simpl]; rewrite Hclose; simpl; reflexivity).
Qed.

(** X7: when [FreeCAD.newDocument] raises, the result is
    [Volume extraction failed: ...] with its message, and neither
    [Import.insert] nor [FreeCAD.closeDocument] is called. *)
Theorem failed_creation_is_an_internal_failure k step_file_path e :
  FreeCAD_available k ->
  FreeCAD_newDocument k "VolumeExtraction" = Raise e ->
  fst (extract_volume k step_file_path [])
  = Ok (Some (error_dict ("Volume extraction failed: " ++ exn_str e)))
  /\ inserted_files (snd (extract_volume k step_file_path [])) = []
  /\ closed_documents (snd (extract_volume k step_file_path [])) = [].
Proof.
  destruct k as [imp imp' newdoc impI ins objsf close]. simpl.
  intros Hav Hnew. unfold inserted_files, closed_documents.
  kernel_available Hav; rewrite Hnew; simpl; repeat split; reflexivity.
Qed.

(** X8: when the loop has completed and [FreeCAD.closeDocument] of line
    48 raises, the computed total is dropped, positive or not: the result
    is [Volume extraction failed: ...] with the message of the close. *)
Theorem failed_close_discards_the_volume
    k step_file_path name objs total n e :
  imported k step_file_path name objs ->
  fst (for_loop objs (num_zero, 0%Z) []) = Normal (total, n) ->
  FreeCAD_closeDocument k name = Raise e ->
  fst (extract_volume k step_file_path [])
  = Ok (Some (error_dict ("Volume extraction failed: " ++ exn_str e))).
Proof.
  intros [Hav Hnew HI Hins Hobjs] Hloop Hclose.
  apply for_loop_normal in Hloop.
  destruct k as [imp imp' newdoc impI ins objsf close]. simpl in *.
  kernel_available Hav; rewrite Hnew; simpl; rewrite HI; simpl;
    rewrite Hins; simpl; rewrite Hobjs; simpl;
    rewrite for_loop_aggregate, Hloop; simpl; rewrite Hclose; reflexivity.
Qed.

Lemma raises_in_loop_contribution o e :
  raises_in_loop o e -> contribution o = Raise e.
Proof.
  unfold contribution, hasattr.
  intros [Hs He | s Hs Hv He].
  - rewrite Hs. destruct (exn_cls e); [reflexivity | contradiction | reflexivity].
  - rewrite Hs, Hv. destruct (exn_cls e); [reflexivity | contradiction | reflexivity].
Qed.

Lemma aggregate_first_raise before o after e : forall acc,
  Forall (fun o => (exists v, is_solid o v) \/ is_skipped o) before ->
  raises_in_loop o e ->
  aggregate (before ++ o :: after) acc = Raise e.
Proof.
  induction before as [| b before IH]; intros acc HF Hr; cbn [app aggregate].
  - rewrite (raises_in_loop_contribution o e Hr). reflexivity.
  - inversion HF as [| ? ? [[v Hb] | Hb] HF']; subst.
    + rewrite (is_solid_contribution b v Hb). apply IH; assumption.
    + rewrite (is_skipped_contribution b Hb). apply IH; assumption.
Qed.

(** X9: the first object on which a read raises something other than
    [AttributeError] decides the result: the objects after it are not
    looked at, the solids counted before it are dropped, the result is
    [Volume extraction failed: ...] with that exception's message, and the
    document is not closed. *)
Theorem first_raising_object_decides
    k step_file_path name before o after e :
  imported k step_file_path name (before ++ o :: after) ->
  Forall (fun o => (exists v, is_solid o v) \/ is_skipped o) before ->
  raises_in_loop o e ->
  fst (extract_volume k step_file_path [])
  = Ok (Some (error_dict ("Volume extraction failed: " ++ exn_str e)))
  /\ closed_documents (snd (extract_volume k step_file_path [])) = [].
Proof.
  intros [Hav Hnew HI Hins Hobjs] HF Hr.
  pose proof (aggregate_first_raise before o after e (num_zero, 0%Z) HF Hr) as Hagg.
  destruct k as [imp imp' newdoc impI ins objsf close]. simpl in *.
  unfold closed_documents.
  kernel_available Hav; rewrite Hnew; simpl; rewrite HI; simpl;
    rewrite Hins; simpl; rewrite Hobjs; simpl;
    rewrite for_loop_aggregate, Hagg; simpl; split; reflexivity.
Qed.

Lemma for_loop_raised objs acc e t :
  fst (for_loop objs acc t) = Raised e <-> aggregate objs acc = Raise e.
Proof.
  rewrite for_loop_aggregate. cbn [fst].
  destruct (aggregate objs acc); split; intros H; inversion H; reflexivity.
Qed.

(** X10: once the document was created, it is left open, with no call to
    [FreeCAD.closeDocument] at all, exactly when the file was imported and
    then either [doc.Objects] raised or the loop raised. *)
Theorem document_left_open_iff k step_file_path name :
  FreeCAD_available k ->
  FreeCAD_newDocument k "VolumeExtraction" = Ok name ->
  closed_documents (snd (extract_volume k step_file_path [])) = []
  <-> (import_Import k = Ok tt
       /\ Import_insert k step_file_path name = Ok tt
       /\ exists e,
            doc_Objects k name step_file_path = Raise e
            \/ exists objs,
                 doc_Objects k name step_file_path = Ok objs
                 /\ fst (for_loop objs (num_zero, 0%Z) []) = Raised e).
Proof.
  destruct k as [imp imp' newdoc impI ins objsf close]. simpl.
  intros Hav Hnew. unfold closed_documents.
  assert (Hcases :
    (exists e, impI = Raise e)
    \/ (impI = Ok tt /\ exists e, ins step_file_path name = Raise e)
    \/ (impI = Ok tt /\ ins step_file_path name = Ok tt
        /\ ((exists e, objsf name step_file_path = Raise e)
            \/ exists objs, objsf name step_file_path = Ok objs
                 /\ ((exists e, aggregate objs (num_zero, 0%Z) = Raise e)
                     \/ exists acc, aggregate objs (num_zero, 0%Z) = Ok acc)))).
  { destruct impI as [[] | eI]; [| eauto].
    destruct (ins step_file_path name) as [[] | ei]; [| eauto 6].
    destruct (objsf name step_file_path) as [objs | eo]; [| eauto 8].
    destruct (aggregate objs (num_zero, 0%Z)) as [acc | el] eqn:Hagg;
      right; right; repeat split; right; exists objs; split; eauto. }
  destruct Hcases as [[eI HI] | [[HI [ei Hins]] | (HI & Hins & Hrest)]].
  - subst impI.
    kernel_available Hav; rewrite Hnew; simpl;
      (destruct (close name); simpl;
       (split; [intros H; discriminate H | intros (H & _); discriminate H])).
  - subst impI.
    kernel_available Hav; rewrite Hnew; simpl; rewrite Hins; simpl;
      (destruct (close name); simpl;
       (split; [intros H; discriminate H
               | intros (_ & H & _); discriminate H])).
  - subst impI.
    destruct Hrest as [[eo Hobjs] | (objs & Hobjs & [[el Hagg] | [[total n] Hagg]])].
    + kernel_available Hav; rewrite Hnew; simpl; rewrite Hins; simpl;
        rewrite Hobjs; simpl;
        (split; [intros _; repeat split; exists eo; left; reflexivity
                | reflexivity]).
    + kernel_available Hav; rewrite Hnew; simpl; rewrite Hins; simpl;
        rewrite Hobjs; simpl; rewrite for_loop_aggregate, Hagg; simpl;
        (split; [intros _; repeat split; exists el; right;
                 exists objs; split; [reflexivity | apply for_loop_raised; assumption]
                | reflexivity]).
    + kernel_available Hav; rewrite Hnew; simpl; rewrite Hins; simpl;
        rewrite Hobjs; simpl; rewrite for_loop_aggregate, Hagg; simpl;
        (destruct (close name); simpl; try destruct (num_le0 total); simpl;
         (split; [intros H; discriminate H |]);
         (intros (_ & _ & er & [H | (objs' & H & Hloop)]);
          [ discriminate H
          | inversion H; subst objs';
            apply for_loop_raised in Hloop; rewrite Hagg in Hloop;
            discriminate Hloop ])).
Qed.

(** X11: in every run [FreeCAD.closeDocument] is called at most once, and
    only on the document that [FreeCAD.newDocument] returned. *)
Theorem closes_only_its_own_document_once k step_file_path :
  closed_documents (snd (extract_volume k step_file_path [])) = []
  \/ exists name,
       FreeCAD_newDocument k "VolumeExtraction" = Ok name
       /\ closed_documents (snd (extract_volume k step_file_path [])) = [name].
Proof.
  destruct k as [imp imp' newdoc impI ins objsf close].
  unfold closed_documents. run. all_exits;
    solve [left; reflexivity
          | right; eexists; split; [first [eassumption | reflexivity] | reflexivity]].
Qed.

(** X12: in every run at most one document is created, under the label
    [VolumeExtraction], and [Import.insert] is called at most once, with
    the path the function was given and the name of that document. *)
Theorem inserts_only_the_given_file k step_file_path :
  (created_labels (snd (extract_volume k step_file_path [])) = []
   \/ created_labels (snd (extract_volume k step_file_path []))
      = ["VolumeExtraction"])
  /\ (inserted_files (snd (extract_volume k step_file_path [])) = []
      \/ exists name,
           FreeCAD_newDocument k "VolumeExtraction" = Ok name
           /\ inserted_files (snd (extract_volume k step_file_path []))
              = [(step_file_path, name)]).
Proof.
  destruct k as [imp imp' newdoc impI ins objsf close].
  unfold created_labels, inserted_files. run. all_exits;
    (split;
     [ solve [left; reflexivity | right; reflexivity]
     | solve [left; reflexivity
             | right; eexists; split; [first [eassumption | reflexivity] | reflexivity]] ]).
Qed.

Lemma positive_volumes_length objs :
  (length (positive_volumes objs) <= length objs)%nat.
Proof.
  unfold positive_volumes. induction objs as [| o rest IH]; cbn [flat_map length].
  - constructor.
  - rewrite length_app.
    destruct (contribution o) as [[v |] | e]; cbn [length]; lia.
Qed.

Lemma aggregate_ok_contributions objs : forall acc acc',
  aggregate objs acc = Ok acc' ->
  Forall (fun o => exists c, contribution o = Ok c) objs.
Proof.
  induction objs as [| o rest IH]; intros acc acc' H; cbn [aggregate] in H.
  - constructor.
  - destruct (contribution o) as [[v |] | e] eqn:Hc; try discriminate H;
      (constructor; [eauto | eapply IH; eassumption]).
Qed.

Section CountLaws.

Context {L : NumberLaws V}.

(** X14: a success never counts more objects than the document has, and
    never fewer than one. *)
Theorem object_count_within_the_document
    k step_file_path name objs volume n :
  imported k step_file_path name objs ->
  fst (extract_volume k step_file_path [])
  = Ok (Some (success_dict volume n)) ->
  (1 <= n <= Z.of_nat (length objs))%Z.
Proof.
  intros [Hav Hnew HI Hins Hobjs].
  destruct k as [imp imp' newdoc impI ins objsf close]. simpl in *.
  kernel_available Hav; rewrite Hnew; simpl; rewrite HI; simpl;
    rewrite Hins; simpl; rewrite Hobjs; simpl;
    rewrite for_loop_aggregate;
    (destruct (aggregate objs (num_zero, 0%Z)) as [[total m] | el] eqn:Hagg;
     simpl; [| intros H; inversion H];
     destruct (close name); simpl; [| intros H; inversion H];
     destruct (num_le0 total) eqn:Hle; simpl; intros H; inversion H; subst;
     destruct (aggregate_gt0_iff objs total n Hagg) as (Hn & Hzero & _);
     pose proof (positive_volumes_length objs);
     (assert (n <> 0%Z)
        by (intros E0; rewrite (Hzero E0), le0_zero in Hle; discriminate Hle));
     lia).
Qed.

(** X15: the order of the document's objects does not change whether the
    result is a success, nor the count: if a document gives a success with
    [object_count = n], a document with the same objects in another order
    gives a success with the same count (the volume is summed in the new
    order). *)
Theorem reordering_objects_keeps_the_count
    k k' step_file_path step_file_path' name name' objs objs' volume n :
  imported k step_file_path name objs ->
  imported k' step_file_path' name' objs' ->
  FreeCAD_closeDocument k' name' = Ok tt ->
  Permutation objs objs' ->
  fst (extract_volume k step_file_path [])
  = Ok (Some (success_dict volume n)) ->
  fst (extract_volume k' step_file_path' [])
  = Ok (Some (success_dict
                (num_div1000 (sum_volumes (positive_volumes objs'))) n)).
Proof.
  intros Himp Himp' Hclose' Hperm Hrun.
  assert (Hagg : exists total, aggregate objs (num_zero, 0%Z) = Ok (total, n)
                               /\ num_le0 total = false).
  { destruct Himp as [Hav Hnew HI Hins Hobjs].
    destruct k as [imp imp' newdoc impI ins objsf close]. simpl in *.
    revert Hrun.
    kernel_available Hav; rewrite Hnew; simpl; rewrite HI; simpl;
      rewrite Hins; simpl; rewrite Hobjs; simpl;
      rewrite for_loop_aggregate;
      (destruct (aggregate objs (num_zero, 0%Z)) as [[total m] | el];
       simpl; [| intros H; inversion H];
       destruct (close name); simpl; [| intros H; inversion H];
       destruct (num_le0 total) eqn:Hle; simpl; intros H; inversion H; subst;
       eauto). }
  destruct Hagg as (total & Hagg & Hle).
  pose proof (aggregate_ok_contributions _ _ _ Hagg) as HF.
  destruct (aggregate_total objs' (num_zero, 0%Z)
              (Permutation_Forall Hperm HF)) as (total' & n' & Hagg').
  destruct (aggregate_gt0_iff objs total n Hagg) as (Hn & Hzero & _).
  destruct (aggregate_gt0_iff objs' total' n' Hagg') as (Hn' & _ & Hpos').
  assert (Hlen : length (positive_volumes objs) = length (positive_volumes objs')).
  { apply Permutation_length. unfold positive_volumes.
    apply Permutation_flat_map. exact Hperm. }
  assert (Hne : n <> 0%Z).
  { intros E0. rewrite (Hzero E0), le0_zero in Hle. discriminate Hle. }
  assert (En : n' = n) by lia. clear Hn'. subst n'.
  rewrite (extract_volume_imported k' step_file_path' name' objs' total' n []
             Himp' Hagg' Hclose').
  rewrite (gt0_not_le0 _ (Hpos' Hne)).
  apply aggregate_positive_volumes in Hagg'. cbn [fst] in Hagg'.
  destruct Hagg' as [-> _]. reflexivity.
Qed.

End CountLaws.

(** ** The command line, again *)

Section CommandLineOutput.

Variable os_path_exists : string -> bool.
Variable json_dumps : option (@dict V) -> string.

(** X16: whatever the arguments, the file system and the kernel do, the
    script prints exactly one line on standard output. *)
Theorem main_prints_exactly_one_line k argv :
  length (stdout (main os_path_exists json_dumps k argv)) = 1%nat.
Proof.
  unfold main.
  destruct (Nat.eqb (length argv) 2); cbn; [| reflexivity].
  destruct (os_path_exists (nth 1 argv "")); cbn; [| reflexivity].
  destruct (extract_volume_returns_a_shape k (nth 1 argv "") []) as (d & Hd & _).
  destruct (extract_volume k (nth 1 argv "") []) as [r calls].
  cbn [fst] in Hd. subst r. reflexivity.
Qed.

(** X17: the script reaches the kernel exactly when it was given one
    argument and that path exists; the calls it then makes are those of
    [extract_volume] on [sys.argv[1]], the first being [import FreeCAD]. *)
Theorem main_contacts_kernel_iff k argv :
  (kernel_calls (main os_path_exists json_dumps k argv) <> []
   <-> length argv = 2%nat /\ os_path_exists (nth 1 argv "") = true)
  /\ (length argv = 2%nat -> os_path_exists (nth 1 argv "") = true ->
      kernel_calls (main os_path_exists json_dumps k argv)
      = snd (extract_volume k (nth 1 argv "") [])
      /\ exists rest,
           kernel_calls (main os_path_exists json_dumps k argv)
           = ev_import "FreeCAD" :: rest).
Proof.
  assert (Hfirst : exists rest,
            snd (extract_volume k (nth 1 argv "") []) = ev_import "FreeCAD" :: rest).
  { destruct k as [imp imp' newdoc impI ins objsf close].
    run. all_exits; eexists; reflexivity. }
  unfold main.
  destruct (Nat.eqb (length argv) 2) eqn:E; cbn.
  - apply Nat.eqb_eq in E.
    destruct (os_path_exists (nth 1 argv "")) eqn:Hex; cbn.
    + destruct Hfirst as (rest & Hrest).
      destruct (extract_volume k (nth 1 argv "") []) as [[r | e] calls];
        cbn [snd] in Hrest; subst calls; cbn;
        (split; [split; [auto | discriminate] | intros _ _; split; eauto]).
    + split; [split; [intros H; contradiction | intros [_ H]; discriminate H]
             | intros _ H; discriminate H].
  - apply Nat.eqb_neq in E.
    split; [split; [intros H; contradiction | intros [H _]; contradiction]
           | intros H; contradiction].
Qed.

End CommandLineOutput.

End Exits.

(** * The other exits at concrete kernels *)

Lemma kernel_unavailable_error_witness :
  extract_volume kernel_not_installed "part.step" []
  = (Ok (Some (error_dict "FreeCAD not installed or not in PATH")),
     [ev_import "FreeCAD";
      ev_sys_path_append "/usr/lib/freecad-python3/lib";
      ev_sys_path_append "/usr/lib/freecad/lib";
      ev_sys_path_append "/Applications/FreeCAD.app/Contents/lib";
      ev_import "FreeCAD"]).
Proof.
  apply (kernel_unavailable_error kernel_not_installed "part.step"
           (Exn ImportError "No module named 'FreeCAD'")
           (Exn ImportError "No module named 'FreeCAD'"));
    reflexivity.
Defined.

Lemma fallback_import_is_transparent_witness :
  fst (extract_volume
         (needing_fallback kernel_two_solids
            (Exn ImportError "No module named 'FreeCAD'")) "part.step" [])
  = fst (extract_volume kernel_two_solids "part.step" [])
  /\ snd (extract_volume
            (needing_fallback kernel_two_solids
               (Exn ImportError "No module named 'FreeCAD'")) "part.step" [])
     = [ev_import "FreeCAD";
        ev_sys_path_append "/usr/lib/freecad-python3/lib";
        ev_sys_path_append "/usr/lib/freecad/lib";
        ev_sys_path_append "/Applications/FreeCAD.app/Contents/lib"]
       ++ snd (extract_volume kernel_two_solids "part.step" []).
Proof.
  apply (fallback_import_is_transparent kernel_two_solids "part.step"
           (Exn ImportError "No module named 'FreeCAD'"));
    reflexivity.
Defined.

Lemma import_crash_is_an_internal_failure_witness :
  fst (extract_volume kernel_import_crashes "part.step" [])
  = Ok (Some (error_dict
                ("Volume extraction failed: "
                 ++ exn_str (Exn OtherException "libFreeCAD.so: undefined symbol"))))
  /\ created_labels (snd (extract_volume kernel_import_crashes "part.step" [])) = [].
Proof.
  apply (import_crash_is_an_internal_failure kernel_import_crashes "part.step"
           (Exn OtherException "libFreeCAD.so: undefined symbol")).
  left. split; reflexivity.
Defined.

Lemma import_failure_closes_and_reports_witness :
  fst (extract_volume (kernel_rejects_file (Ok tt)) "notes.txt" [])
  = Ok (Some (error_dict
                ("Failed to import STEP file: "
                 ++ exn_str (Exn OtherException "not a STEP file"))))
  /\ closed_documents
       (snd (extract_volume (kernel_rejects_file (Ok tt)) "notes.txt" []))
     = ["VolumeExtraction"].
Proof.
  apply (import_failure_closes_and_reports
           (kernel_rejects_file (Ok tt)) "notes.txt" "VolumeExtraction"
           (Exn OtherException "not a STEP file")).
  - left. reflexivity.
  - reflexivity.
  - right. split; reflexivity.
  - reflexivity.
Defined.

Lemma failed_close_hides_the_import_error_witness :
  fst (extract_volume
         (kernel_rejects_file (Raise (Exn OtherException "document is locked")))
         "notes.txt" [])
  = Ok (Some (error_dict
                ("Volume extraction failed: "
                 ++ exn_str (Exn OtherException "document is locked")))).
Proof.
  apply (failed_close_hides_the_import_error
           (kernel_rejects_file (Raise (Exn OtherException "document is locked")))
           "notes.txt" "VolumeExtraction"
           (Exn OtherException "not a STEP file")
           (Exn OtherException "document is locked")).
  - left. reflexivity.
  - reflexivity.
  - right. split; reflexivity.
  - reflexivity.
Defined.

Lemma failed_creation_is_an_internal_failure_witness :
  fst (extract_volume kernel_no_document "part.step" [])
  = Ok (Some (error_dict
                ("Volume extraction failed: "
                 ++ exn_str (Exn OtherException "cannot create document"))))
  /\ inserted_files (snd (extract_volume kernel_no_document "part.step" [])) = []
  /\ closed_documents (snd (extract_volume kernel_no_document "part.step" [])) = [].
Proof.
  apply (failed_creation_is_an_internal_failure kernel_no_document "part.step"
           (Exn OtherException "cannot create document")).
  - left. reflexivity.
  - reflexivity.
Defined.

Lemma kernel_close_fails_imported :
  imported kernel_close_fails "part.step" "VolumeExtraction"
           [solid 1500%float; solid 2500%float].
Proof.
  constructor; try reflexivity. left. reflexivity.
Defined.

Lemma failed_close_discards_the_volume_witness :
  fst (extract_volume kernel_close_fails "part.step" [])
  = Ok (Some (error_dict
                ("Volume extraction failed: "
                 ++ exn_str (Exn OtherException "document is locked")))).
Proof.
  apply (failed_close_discards_the_volume
           kernel_close_fails "part.step" "VolumeExtraction"
           [solid 1500%float; solid 2500%float] 4000%float 2%Z
           (Exn OtherException "document is locked")).
  - apply kernel_close_fails_imported.
  - reflexivity.
  - reflexivity.
Defined.

Lemma first_raising_object_decides_witness :
  fst (extract_volume
         (kernel_with (Ok ([solid 1500%float] ++ broken_object :: [solid 2500%float])))
         "part.step" [])
  = Ok (Some (error_dict
                ("Volume extraction failed: "
                 ++ exn_str (Exn OtherException "shape is invalid"))))
  /\ closed_documents
       (snd (extract_volume
               (kernel_with
                  (Ok ([solid 1500%float] ++ broken_object :: [solid 2500%float])))
               "part.step" []))
     = [].
Proof.
  apply (first_raising_object_decides
           (kernel_with (Ok ([solid 1500%float] ++ broken_object :: [solid 2500%float])))
           "part.step" "VolumeExtraction"
           [solid 1500%float] broken_object [solid 2500%float]
           (Exn OtherException "shape is invalid")).
  - apply kernel_with_imported.
  - constructor; [| constructor].
    left. exists 1500%float. eexists. repeat split; reflexivity.
  - apply raises_on_Shape; [reflexivity | discriminate].
Defined.

Lemma document_left_open_iff_witness :
  closed_documents (snd (extract_volume kernel_objects_raise "part.step" [])) = []
  <-> (import_Import kernel_objects_raise = Ok tt
       /\ Import_insert kernel_objects_raise "part.step" "VolumeExtraction" = Ok tt
       /\ exists e,
            doc_Objects kernel_objects_raise "VolumeExtraction" "part.step" = Raise e
            \/ exists objs,
                 doc_Objects kernel_objects_raise "VolumeExtraction" "part.step"
                 = Ok objs
                 /\ fst (for_loop objs (num_zero, 0%Z) []) = Raised e).
Proof.
  apply (document_left_open_iff kernel_objects_raise "part.step" "VolumeExtraction").
  - left. reflexivity.
  - reflexivity.
Defined.

Lemma closeDocument_called_on_the_other_exits_witness :
  In (ev_closeDocument "VolumeExtraction")
     (snd (extract_volume kernel_no_solid "surfaces.step" [])).
Proof.
  apply (closeDocument_called_on_the_other_exits
           kernel_no_solid "surfaces.step" "VolumeExtraction"
           (error_dict "No valid solid objects found in STEP file")).
  - vm_compute. right. left. reflexivity.
  - reflexivity.
  - right. left. reflexivity.
Defined.

Lemma object_count_within_the_document_witness :
  (1 <= 2 <= Z.of_nat (length [@datum float; solid 1500%float; open_shape;
                               solid 0%float; solid 2500%float]))%Z.
Proof.
  apply (object_count_within_the_document
           kernel_two_solids "part.step" "VolumeExtraction"
           [datum; solid 1500%float; open_shape; solid 0%float; solid 2500%float]
           4%float 2%Z).
  - apply kernel_with_imported.
  - reflexivity.
Defined.

Lemma reordering_objects_keeps_the_count_witness :
  fst (extract_volume
         (kernel_with (Ok [solid 2500%float; datum; solid 1500%float]))
         "reordered.step" [])
  = Ok (Some (success_dict
                (num_div1000
                   (sum_volumes
                      (positive_volumes
                         [solid 2500%float; datum; solid 1500%float])))
                2%Z)).
Proof.
  apply (reordering_objects_keeps_the_count
           (kernel_with (Ok [datum; solid 1500%float; solid 2500%float]))
           (kernel_with (Ok [solid 2500%float; datum; solid 1500%float]))
           "part.step" "reordered.step" "VolumeExtraction" "VolumeExtraction"
           [datum; solid 1500%float; solid 2500%float]
           [solid 2500%float; datum; solid 1500%float]
           4%float 2%Z).
  - apply kernel_with_imported.
  - apply kernel_with_imported.
  - reflexivity.
  - apply perm_trans with [solid 1500%float; datum; solid 2500%float].
    + apply perm_swap.
    + apply perm_trans with [solid 1500%float; solid 2500%float; datum].
      * apply perm_skip. apply perm_swap.
      * apply perm_trans with [solid 2500%float; solid 1500%float; datum].
        -- apply perm_swap.
        -- apply perm_skip. apply perm_swap.
  - reflexivity.
Defined.

(** * The unit conversion in binary64

    The quotient by 1000.0 of a positive binary64 value is positive exactly
    when the value exceeds [underflow_threshold]: at or below it the
    quotient is at most half of the smallest positive value and rounds to
    0.0. *)

Section Underflow.

Local Open Scope Z_scope.

Lemma Prim2SF_threshold : Prim2SF underflow_threshold = S754_finite false 500 (-1074).
Proof. reflexivity. Qed.

Lemma bounded_digits mx ex :
  bounded prec emax mx ex = true ->
  -1074 <= ex
  /\ (ex = -1074 -> Z.pos (digits2_pos mx) <= 53)
  /\ (-1074 < ex -> Z.pos (digits2_pos mx) = 53).
Proof.
  unfold bounded, canonical_mantissa. intros H.
  apply andb_prop in H. destruct H as [H _]. apply Z.eqb_eq in H.
  unfold fexp, SpecFloat.emin, prec, emax in H. lia.
Qed.

Lemma div_eucl_div_mod a b q r :
  0 < b -> Z.div_eucl a b = (q, r) -> a = b * q + r /\ 0 <= r < b.
Proof.
  intros Hb E. pose proof (Z_div_mod a b ltac:(lia)) as H.
  rewrite E in H. exact H.
Qed.

Lemma SF64div_1000_positive mx ex :
  bounded prec emax mx ex = true ->
  -1074 < ex \/ (ex = -1074 /\ 500 < Z.pos mx) ->
  sf_positive (SF64div (S754_finite false mx ex)
                 (S754_finite false 8796093022208000 (-43))) = true.
Proof.
  intros Hb Hbig. destruct (bounded_digits mx ex Hb) as (Hemin & Hsub & Hnorm).
  pose proof (digits2_pos_lower mx) as Hlow.
  unfold SF64div, SFdiv, SFdiv_core_binary. cbn [xorb].
  change (Zdigits2 (Z.pos 8796093022208000)) with 53.
  cbn [Zdigits2].
  set (e' := Z.min (fexp prec emax (Z.pos (digits2_pos mx) + ex - (53 + -43))) (ex - -43)).
  assert (He' : -1074 <= e' /\ (ex = -1074 -> e' = -1074) /\ (-1074 < ex -> 44 <= ex - -43 - e')).
  { subst e'. unfold fexp, SpecFloat.emin, prec, emax.
    lia. }
  destruct He' as (He'min & He'sub & He'norm).
  destruct (Z.eq_dec ex (-1074)) as [Eex | Nex].
  - (* the smallest exponent *)
    assert (Hmx : 500 < Z.pos mx) by lia.
    rewrite (He'sub Eex). subst ex.
    match goal with
    | |- context [match ?s with Z0 => _ | Zpos _ => _ | Zneg _ => _ end] =>
        change s with 43
    end.
    cbv beta iota.
    change IntDef.Z.shiftl with Z.shiftl. change IntDef.Z.div_eucl with Z.div_eucl.
    rewrite Z.shiftl_mul_pow2 by lia.
    destruct (Z.div_eucl (Z.pos mx * 2 ^ 43) (Z.pos 8796093022208000)) as [q r] eqn:E.
    apply div_eucl_div_mod in E; [| lia]. destruct E as [E Hr].
    change (2 ^ 43) with 8796093022208 in E.
    destruct (Z_lt_le_dec (Z.pos mx) 1000) as [Hsmall | Hlarge].
    + assert (q = 0) by nia. subst q.
      assert (Er : r = Z.pos mx * 8796093022208) by lia.
      unfold new_location. change (Z.even (Z.pos 8796093022208000)) with true.
      cbv iota. unfold new_location_even.
      destruct (r =? 0) eqn:Er0; [apply Z.eqb_eq in Er0; lia |].
      assert (Hc : (2 * r ?= Z.pos 8796093022208000) = Gt) by (apply Z.compare_gt_iff; lia).
      rewrite Hc. reflexivity.
    + apply binary_round_aux_positive; [nia | lia].
  - assert (Hex : -1074 < ex) by lia.
    specialize (He'norm Hex). specialize (Hnorm Hex). rewrite Hnorm in Hlow.
    change (2 ^ (53 - 1)) with 4503599627370496 in Hlow.
    change IntDef.Z.shiftl with Z.shiftl. change IntDef.Z.div_eucl with Z.div_eucl.
    change IntDef.Z.sub with Z.sub.
    destruct (ex - -43 - e') as [| s | s] eqn:Es; try lia.
    rewrite Z.shiftl_mul_pow2 by lia.
    assert (Hpow : 17592186044416 <= 2 ^ Z.pos s).
    { change 17592186044416 with (2 ^ 44). apply Z.pow_le_mono_r; lia. }
    destruct (Z.div_eucl (Z.pos mx * 2 ^ Z.pos s) (Z.pos 8796093022208000)) as [q r] eqn:E.
    apply div_eucl_div_mod in E; [| lia]. destruct E as [E Hr].
    apply binary_round_aux_positive; [nia | lia].
Qed.

Lemma SF64div_1000_zero mx :
  Z.pos mx <= 500 ->
  SF64div (S754_finite false mx (-1074))
          (S754_finite false 8796093022208000 (-43))
  = S754_zero false.
Proof.
  intros Hmx.
  pose proof (digits2_pos_lower mx) as Hlow.
  assert (Hd : Z.pos (digits2_pos mx) <= 53).
  { destruct (Z_le_gt_dec (Z.pos (digits2_pos mx)) 53) as [H | H]; [exact H |].
    exfalso. assert (2 ^ 53 <= 2 ^ (Z.pos (digits2_pos mx) - 1)) by (apply Z.pow_le_mono_r; lia).
    change (2 ^ 53) with 9007199254740992 in *. lia. }
  unfold SF64div, SFdiv, SFdiv_core_binary. cbn [xorb].
  change (Zdigits2 (Z.pos 8796093022208000)) with 53.
  cbn [Zdigits2].
  set (e' := Z.min (fexp prec emax (Z.pos (digits2_pos mx) + -1074 - (53 + -43))) (-1074 - -43)).
  assert (He' : e' = -1074).
  { subst e'. unfold fexp, SpecFloat.emin, prec, emax.
    change IntDef.Z.max with Z.max. change IntDef.Z.sub with Z.sub. lia. }
  rewrite He'.
  match goal with
  | |- context [match ?s with Z0 => _ | Zpos _ => _ | Zneg _ => _ end] =>
      change s with 43
  end.
  cbv beta iota.
  change IntDef.Z.shiftl with Z.shiftl. change IntDef.Z.div_eucl with Z.div_eucl.
  rewrite Z.shiftl_mul_pow2 by lia.
  destruct (Z.div_eucl (Z.pos mx * 2 ^ 43) (Z.pos 8796093022208000)) as [q r] eqn:E.
  apply div_eucl_div_mod in E; [| lia]. destruct E as [E Hr].
  change (2 ^ 43) with 8796093022208 in E.
  assert (q = 0) by nia. subst q.
  assert (Er : r = Z.pos mx * 8796093022208) by lia.
  unfold new_location. change (Z.even (Z.pos 8796093022208000)) with true.
  cbv iota. unfold new_location_even.
  destruct (r =? 0) eqn:Er0; [apply Z.eqb_eq in Er0; lia |].
  destruct (Z.eq_dec (Z.pos mx) 500) as [E500 | N500].
  - assert (Hc : (2 * r ?= Z.pos 8796093022208000) = Eq) by (apply Z.compare_eq_iff; lia).
    rewrite Hc. reflexivity.
  - assert (Hc : (2 * r ?= Z.pos 8796093022208000) = Lt) by (apply Z.compare_lt_iff; lia).
    rewrite Hc. reflexivity.
Qed.

Lemma float_div1000_positive_iff (x : float) :
  (0 <? x)%float = true ->
  (0 <? x / 1000)%float = true <-> (underflow_threshold <? x)%float = true.
Proof.
  intros Hx. apply float_gt0_positive in Hx.
  rewrite float_gt0_positive, div_spec, Prim2SF_1000.
  rewrite ltb_spec, Prim2SF_threshold.
  pose proof (Prim2SF_valid x) as Hvalid.
  destruct (Prim2SF x) as [[|] | [|] | | [|] mx ex]; try discriminate Hx.
  - split; reflexivity.
  - cbn [SpecFloat.valid_binary] in Hvalid.
    destruct (bounded_digits mx ex Hvalid) as (Hemin & _ & _).
    unfold SFltb, SFcompare.
    destruct (Z.compare_spec (-1074) ex) as [Eex | Hlt | Hgt].
    + subst ex.
      change (PosDef.Pos.compare_cont Eq 500 mx) with (Pos.compare 500 mx).
      destruct (Pos.compare_spec 500 mx) as [E | Hlt | Hgt].
      * subst mx. split; intros H; [| discriminate H].
        rewrite SF64div_1000_zero in H by lia. discriminate H.
      * split; intros _; [reflexivity |].
        apply SF64div_1000_positive; [assumption | right; split; [reflexivity | lia]].
      * split; intros H; [| discriminate H].
        rewrite SF64div_1000_zero in H by lia. discriminate H.
    + split; intros _; [reflexivity |].
      apply SF64div_1000_positive; [assumption | left; assumption].
    + lia.
Qed.

End Underflow.

(** * The invariant of a success result, in binary64 *)

(** A success comes out of the loop over the objects of the document that
    was created, with a total that passed the guard of line 50. *)
Lemma extract_volume_success_run
    {V : Type} {N : Number V} (k : @Kernel V) (step_file_path : string)
    (t : trace) (d : @dict V) :
  fst (extract_volume k step_file_path t) = Ok (Some d) ->
  is_success_shape d = true ->
  exists name objs total n,
    FreeCAD_newDocument k "VolumeExtraction" = Ok name
    /\ doc_Objects k name step_file_path = Ok objs
    /\ fst (for_loop objs (num_zero, 0%Z) []) = Normal (total, n)
    /\ num_le0 total = false
    /\ d = success_dict (num_div1000 total) n.
Proof.
  destruct k as [imp imp' newdoc impI ins objsf close].
  unfold extract_volume, call_function, extract_volume_body,
    import_FreeCAD_stmt, import_STEP_stmt, try_except, bind, call, eval,
    return_, ret, is_Exception, is_ImportError; simpl.
  repeat (rewrite ?for_loop_aggregate; simpl;
          try match goal with
            | |- context [let '(_, _) := ?p in _] => is_var p; destruct p; simpl
            | |- context [match ?o with Ok _ => _ | Raise _ => _ end] =>
                destruct o eqn:?; simpl
            | |- context [match exn_cls ?e with _ => _ end] =>
                destruct (exn_cls e) eqn:?; simpl
            | |- context [if ?b then _ else _] => destruct b eqn:?; simpl
            end);
    intros H Hs; inversion H; subst d; try discriminate Hs;
    (do 4 eexists; split; [first [reflexivity | eassumption] |];
     split; [first [eassumption | reflexivity] |];
     split; [rewrite for_loop_aggregate; cbn [fst];
             match goal with H : aggregate _ _ = Ok _ |- _ => rewrite H end;
             reflexivity |];
     split; [assumption | reflexivity]).
Qed.

(** C2, amended: whenever the result has the success shape, the volume and
    the count are those of the loop over the objects of the imported
    document: [object_count] is at least 1 (and at most the number of
    objects), the total in mm3 is [> 0], and the returned volume, that
    total divided by 1000.0 in binary64, is not negative and not a NaN; it
    is [> 0] exactly when the total exceeds 500 * 2^-1074 mm3. *)
Theorem success_has_positive_total_and_count
    (k : @Kernel float) (step_file_path : string) (t : trace) (d : @dict float) :
  fst (extract_volume k step_file_path t) = Ok (Some d) ->
  is_success_shape d = true ->
  exists name objs total n,
    FreeCAD_newDocument k "VolumeExtraction" = Ok name
    /\ doc_Objects k name step_file_path = Ok objs
    /\ fst (for_loop objs (num_zero, 0%Z) []) = Normal (total, n)
    /\ d = success_dict (total / 1000)%float n
    /\ (1 <= n <= Z.of_nat (length objs))%Z
    /\ (0 <? total)%float = true
    /\ (0 <=? total / 1000)%float = true
    /\ ((0 <? total / 1000)%float = true
        <-> (underflow_threshold <? total)%float = true).
Proof.
  intros Hrun Hshape.
  destruct (extract_volume_success_run k step_file_path t d Hrun Hshape)
    as (name & objs & total & n & Hnew & Hobjs & Hloop & Hle & ->).
  pose proof (for_loop_normal _ _ _ _ Hloop) as Hagg.
  destruct (aggregate_gt0_iff objs total n Hagg) as (Hn & Hzero & Hpos).
  pose proof (positive_volumes_length objs) as Hlen.
  assert (Hne : n <> 0%Z).
  { intros E0. rewrite (Hzero E0) in Hle. discriminate Hle. }
  exists name, objs, total, n.
  repeat (split; [first [assumption | reflexivity | lia] |]).
  split; [exact (Hpos Hne) |].
  split; [apply float_div1000_nonneg; exact (Hpos Hne) |].
  apply float_div1000_positive_iff. exact (Hpos Hne).
Qed.

(** The success invariant on the document with two solids. *)
Lemma success_has_positive_total_and_count_witness :
  exists name objs total n,
    FreeCAD_newDocument kernel_two_solids "VolumeExtraction" = Ok name
    /\ doc_Objects kernel_two_solids name "part.step" = Ok objs
    /\ fst (for_loop objs (num_zero, 0%Z) []) = Normal (total, n)
    /\ success_dict 4%float 2%Z = success_dict (total / 1000)%float n
    /\ (1 <= n <= Z.of_nat (length objs))%Z
    /\ (0 <? total)%float = true
    /\ (0 <=? total / 1000)%float = true
    /\ ((0 <? total / 1000)%float = true
        <-> (underflow_threshold <? total)%float = true).
Proof.
  apply (success_has_positive_total_and_count
           kernel_two_solids "part.step" [] (success_dict 4%float 2%Z));
    reflexivity.
Defined.

(** * Results when the kernel raises *)

(** A document with a datum and a zero-volume solid that the kernel fails
    to close. *)
Definition kernel_no_solid_close_fails : @Kernel float := {|
  import_FreeCAD := Ok tt;
  import_FreeCAD_retry := Ok tt;
  FreeCAD_newDocument := fun label => Ok label;
  import_Import := Ok tt;
  Import_insert := fun _ _ => Ok tt;
  doc_Objects := fun _ _ => Ok [datum; solid 0%float];
  FreeCAD_closeDocument := fun _ => Raise (Exn OtherException "document is locked")
|}.

(** A solid of 1500 mm3 followed by an object whose shape cannot be
    read. *)
Definition kernel_solid_then_broken : @Kernel float :=
  kernel_with (Ok [solid 1500%float; broken_object]).

(** C3, as stated, fails: two solids of 1500 and 2500 mm3 are imported,
    [FreeCAD.closeDocument] of line 48 raises, and the result is
    [Volume extraction failed: ...], not the success with their sum. *)
Lemma raising_close_loses_the_sum :
  ~ (forall (k : @Kernel float) (step_file_path name : string)
            (objs : list (@obj float)) (vs : list float) (t : trace),
        imported k step_file_path name objs ->
        solids_of objs vs ->
        vs <> [] ->
        fst (extract_volume k step_file_path t)
        = Ok (Some (success_dict (num_div1000 (sum_volumes vs))
                                 (Z.of_nat (length vs))))).
Proof.
  intros H.
  assert (Hrun : fst (extract_volume kernel_close_fails "part.step" [])
                 = Ok (Some (error_dict
                               "Volume extraction failed: document is locked")))
    by reflexivity.
  specialize (H kernel_close_fails "part.step" "VolumeExtraction"
                [solid 1500%float; solid 2500%float]
                [1500%float; 2500%float] []).
  rewrite Hrun in H.
  assert (Himp : imported kernel_close_fails "part.step" "VolumeExtraction"
                          [solid 1500%float; solid 2500%float]).
  { constructor; try reflexivity. left. reflexivity. }
  assert (Hsolids : solids_of [solid 1500%float; solid 2500%float]
                              [1500%float; 2500%float]).
  { apply solids_solid; [eexists; repeat split; reflexivity |].
    apply solids_solid; [eexists; repeat split; reflexivity |].
    apply solids_nil. }
  specialize (H Himp Hsolids ltac:(discriminate)).
  discriminate H.
Qed.

(** C5, as stated, fails: a datum and a zero-volume solid give the total
    0.0, [FreeCAD.closeDocument] of line 48 raises before the guard of
    line 50, and the message is [Volume extraction failed: ...]. *)
Lemma raising_close_hides_no_solid_geometry :
  ~ (forall (k : @Kernel float) (step_file_path name : string)
            (objs : list (@obj float)) (total : float) (n : Z) (t : trace),
        imported k step_file_path name objs ->
        fst (for_loop objs (num_zero, 0%Z) []) = Normal (total, n) ->
        num_le0 total = true ->
        fst (extract_volume k step_file_path t)
        = Ok (Some (error_dict "No valid solid objects found in STEP file"))).
Proof.
  intros H.
  assert (Hrun : fst (extract_volume kernel_no_solid_close_fails "surfaces.step" [])
                 = Ok (Some (error_dict
                               "Volume extraction failed: document is locked")))
    by reflexivity.
  specialize (H kernel_no_solid_close_fails "surfaces.step" "VolumeExtraction"
                [datum; solid 0%float] 0%float 0%Z []).
  rewrite Hrun in H.
  assert (Himp : imported kernel_no_solid_close_fails "surfaces.step"
                          "VolumeExtraction" [datum; solid 0%float]).
  { constructor; try reflexivity. left. reflexivity. }
  specialize (H Himp eq_refl eq_refl).
  discriminate H.
Qed.

(** C10, as stated, fails twice.  A solid followed by an object whose
    shape cannot be read: the document holds a positive volume, the kernel
    would close it, and the result is [Volume extraction failed: ...].
    Two solids and a [FreeCAD.closeDocument] that raises: the loop
    completes with a positive total, and the result is an error again. *)
Lemma solid_does_not_guarantee_success :
  ~ (forall (k : @Kernel float) (step_file_path name : string)
            (objs : list (@obj float)) (t : trace),
        imported k step_file_path name objs ->
        FreeCAD_closeDocument k name = Ok tt ->
        (exists o v, In o objs /\ is_solid o v) ->
        exists volume n,
          fst (extract_volume k step_file_path t)
          = Ok (Some (success_dict volume n)))
  /\ ~ (forall (k : @Kernel float) (step_file_path name : string)
               (objs : list (@obj float)) (total : float) (n : Z) (t : trace),
          imported k step_file_path name objs ->
          fst (for_loop objs (num_zero, 0%Z) []) = Normal (total, n) ->
          (exists o v, In o objs /\ is_solid o v) ->
          exists volume n',
            fst (extract_volume k step_file_path t)
            = Ok (Some (success_dict volume n'))).
Proof.
  assert (Hsolid : forall rest : list (@obj float),
            exists o v, In o (solid 1500%float :: rest) /\ is_solid o v).
  { intros rest. exists (solid 1500%float), 1500%float.
    split; [left; reflexivity | eexists; repeat split; reflexivity]. }
  split; intros H.
  - assert (Hrun : fst (extract_volume kernel_solid_then_broken "part.step" [])
                   = Ok (Some (error_dict
                                 "Volume extraction failed: shape is invalid")))
      by reflexivity.
    destruct (H kernel_solid_then_broken "part.step" "VolumeExtraction"
                [solid 1500%float; broken_object] []
                (kernel_with_imported _ _) eq_refl (Hsolid _))
      as (volume & n & Hsuccess).
    rewrite Hrun in Hsuccess. discriminate Hsuccess.
  - assert (Hrun : fst (extract_volume kernel_close_fails "part.step" [])
                   = Ok (Some (error_dict
                                 "Volume extraction failed: document is locked")))
      by reflexivity.
    assert (Himp : imported kernel_close_fails "part.step" "VolumeExtraction"
                            [solid 1500%float; solid 2500%float]).
    { constructor; try reflexivity. left. reflexivity. }
    destruct (H kernel_close_fails "part.step" "VolumeExtraction"
                [solid 1500%float; solid 2500%float] 4000%float 2%Z []
                Himp eq_refl (Hsolid _))
      as (volume & n & Hsuccess).
    rewrite Hrun in Hsuccess. discriminate Hsuccess.
Qed.

(** * Repeated invocation *)

(** An environment is the same as itself. *)
Lemma same_environment_refl
    {V : Type} (k : @Kernel V) (path : string) : same_environment k k path.
Proof.
  constructor.
  - apply import_unchanged; reflexivity.
  - reflexivity.
  - intros label. unfold same_document.
    destruct (FreeCAD_newDocument k label); [repeat split |]; reflexivity.
Qed.

(** C9: two invocations on the same file in the same environment return
    the same dict, so that [json.dumps] prints the same line: the kernel
    behaves alike for both, and the second may find what the first left
    behind (the module already imported, [sys.path] extended, a document
    still open so that the new one gets another name).  The result depends
    on none of these. *)
Theorem repeated_invocation_gives_identical_result
    {V : Type} {N : Number V}
    (json_dumps : option (@dict V) -> string)
    (k1 k2 : @Kernel V) (step_file_path : string) (t1 t2 : trace) :
  same_environment k1 k2 step_file_path ->
  fst (extract_volume k2 step_file_path t2)
  = fst (extract_volume k1 step_file_path t1)
  /\ match fst (extract_volume k1 step_file_path t1),
           fst (extract_volume k2 step_file_path t2) with
     | Ok r1, Ok r2 => json_dumps r2 = json_dumps r1
     | _, _ => False
     end.
Proof.
  intros [Himp HI Hdoc].
  assert (Hsame : fst (extract_volume k2 step_file_path t2)
                  = fst (extract_volume k1 step_file_path t1)).
  { specialize (Hdoc "VolumeExtraction"). unfold same_document in Hdoc.
    destruct k1 as [imp1 imp1' newdoc1 impI1 ins1 objsf1 close1].
    destruct k2 as [imp2 imp2' newdoc2 impI2 ins2 objsf2 close2].
    simpl in *. subst impI2.
    unfold extract_volume, call_function, extract_volume_body,
      import_FreeCAD_stmt, import_STEP_stmt, try_except, bind, call, eval,
      return_, ret, is_Exception; simpl.
    destruct (newdoc1 "VolumeExtraction") as [name1 | e1];
      destruct (newdoc2 "VolumeExtraction") as [name2 | e2];
      try contradiction.
    - destruct Hdoc as (Hins & Hobjs & Hclose).
      rewrite Hins, Hobjs, Hclose.
      destruct Himp as [H1 H2 | Hav H2 | e H0 He H1 H2]; simpl in *.
      + subst imp2 imp2'.
        repeat (rewrite ?for_loop_aggregate; simpl;
                try match goal with
                  | |- context [let '(_, _) := ?p in _] => is_var p; destruct p; simpl
                  | |- context [match ?o with Ok _ => _ | Raise _ => _ end] =>
                      destruct o eqn:?; simpl
                  | |- context [if ?b then _ else _] => destruct b eqn:?; simpl
                  end); reflexivity.
      + subst imp2. unfold FreeCAD_available in Hav. simpl in Hav.
        destruct Hav as [-> | (e0 & -> & He0 & ->)]; simpl; try rewrite He0; simpl;
        repeat (rewrite ?for_loop_aggregate; simpl;
                try match goal with
                  | |- context [let '(_, _) := ?p in _] => is_var p; destruct p; simpl
                  | |- context [match ?o with Ok _ => _ | Raise _ => _ end] =>
                      destruct o eqn:?; simpl
                  | |- context [if ?b then _ else _] => destruct b eqn:?; simpl
                  end); reflexivity.
      + subst imp1 imp2 imp2'. rewrite He; simpl.
        repeat (rewrite ?for_loop_aggregate; simpl;
                try match goal with
                  | |- context [let '(_, _) := ?p in _] => is_var p; destruct p; simpl
                  | |- context [match ?o with Ok _ => _ | Raise _ => _ end] =>
                      destruct o eqn:?; simpl
                  | |- context [if ?b then _ else _] => destruct b eqn:?; simpl
                  end); reflexivity.
    - subst e2.
      destruct Himp as [H1 H2 | Hav H2 | e H0 He H1 H2]; simpl in *.
      + subst imp2 imp2'.
        repeat (simpl;
                try match goal with
                  | |- context [match ?o with Ok _ => _ | Raise _ => _ end] =>
                      destruct o eqn:?; simpl
                  | |- context [if ?b then _ else _] => destruct b eqn:?; simpl
                  end); reflexivity.
      + subst imp2. unfold FreeCAD_available in Hav. simpl in Hav.
        destruct Hav as [-> | (e0 & -> & He0 & ->)]; simpl; try rewrite He0; simpl;
          reflexivity.
      + subst imp1 imp2 imp2'. rewrite He; simpl.
        repeat (simpl;
                try match goal with
                  | |- context [match ?o with Ok _ => _ | Raise _ => _ end] =>
                      destruct o eqn:?; simpl
                  | |- context [if ?b then _ else _] => destruct b eqn:?; simpl
                  end); reflexivity. }
  split; [exact Hsame |].
  rewrite Hsame.
  destruct (extract_volume_returns_a_shape k1 step_file_path t1) as (d & -> & _).
  reflexivity.
Qed.

(** After a first invocation that needed the fallback directories, the
    second, which finds the module imported and names its document
    otherwise, returns the same 4.0 cm3 for two objects. *)
Lemma repeated_invocation_gives_identical_result_witness :
  fst (extract_volume kernel_second_invocation "part.step"
         (snd (extract_volume kernel_first_invocation "part.step" [])))
  = fst (extract_volume kernel_first_invocation "part.step" [])
  /\ match fst (extract_volume kernel_first_invocation "part.step" []),
           fst (extract_volume kernel_second_invocation "part.step"
                  (snd (extract_volume kernel_first_invocation "part.step" [])))
     with
     | Ok r1, Ok r2 => (fun _ => "printed") r2 = (fun _ => "printed") r1
     | _, _ => False
     end.
Proof.
  apply (repeated_invocation_gives_identical_result
           (fun _ => "printed")
           kernel_first_invocation kernel_second_invocation "part.step" []
           (snd (extract_volume kernel_first_invocation "part.step" []))).
  constructor.
  - apply import_cached; [right | reflexivity].
    exists (Exn ImportError "No module named 'FreeCAD'").
    repeat split; reflexivity.
  - reflexivity.
  - intros label. repeat split; reflexivity.
Defined.
